(** * go-satnogs: the SatNOGS DB client (package gosatnogs)

    A shallow embedding of [client.go] and of the bits of Go's standard
    library the client calls into.

    - [url]: the query half of [net/url]: [QueryEscape], [QueryUnescape],
      [Values] with [Add] and [Encode], and [ParseQuery].
    - [http]: requests, headers, responses and the [http.Client] with its
      [Timeout], over a log of the requests handed to the transport.
    - [Client]: the repository's own code: [NewClient], [Get],
      [GetTelemetryResponse], the two [GetTelemetry] and the two
      pagination walkers.

    Go strings are byte strings: [string] with one [ascii] per byte.
    A Go result pair [(v, err)] is a pair of options, [None] for [nil]. *)

From Stdlib Require Import ZArith NArith Ascii.
From stdpp Require Import gmap strings list fin_maps sorting.

(** ** Errors

    Go's [error] values the client can see.  The client never builds an
    error of its own: every error is one a library call returned. *)
Inductive error : Type :=
  | EscapeError (s : string)    (* url.EscapeError: invalid URL escape *)
  | ErrSemicolon                (* url: invalid semicolon separator *)
  | ErrTimeout                  (* net/http: Client.Timeout exceeded *)
  | ErrLib (pkg msg : string).  (* any other error of a library *)

Global Instance error_eq_dec : EqDecision error.
Proof. solve_decision. Defined.

(** * net/url: query escaping *)
Module url.

Local Open Scope char_scope.

Definition byte_in (lo hi c : ascii) : bool :=
  (N_of_ascii lo <=? N_of_ascii c)%N && (N_of_ascii c <=? N_of_ascii hi)%N.

(** [shouldEscape(c, encodeQueryComponent)]: letters and digits and the
    four marks [-_.~] stay; the reserved characters
    [$&+,/:;=?@] and everything else are escaped. *)
Definition shouldEscape (c : ascii) : bool :=
  if byte_in "a" "z" c || byte_in "A" "Z" c || byte_in "0" "9" c then false
  else if Ascii.eqb c "-" || Ascii.eqb c "_" || Ascii.eqb c "."
          || Ascii.eqb c "~" then false
  else true.

(** [upperhex[i]] for [i < 16], where [upperhex = "0123456789ABCDEF"]. *)
Definition upperhex (i : N) : ascii :=
  if (i <? 10)%N then ascii_of_N (N_of_ascii "0" + i)
  else ascii_of_N (N_of_ascii "A" + (i - 10)).

Definition ishex (c : ascii) : bool :=
  byte_in "0" "9" c || byte_in "a" "f" c || byte_in "A" "F" c.

Definition unhex (c : ascii) : N :=
  if byte_in "0" "9" c then N_of_ascii c - N_of_ascii "0"
  else if byte_in "a" "f" c then N_of_ascii c - N_of_ascii "a" + 10
  else if byte_in "A" "F" c then N_of_ascii c - N_of_ascii "A" + 10
  else 0.

(** First loop of [escape]: how many spaces and how many bytes to
    write as [%XX]. *)
Fixpoint escape_count (s : string) : nat * nat :=
  match s with
  | EmptyString => (0, 0)
  | String c s' =>
      let '(spaceCount, hexCount) := escape_count s' in
      if shouldEscape c then
        if Ascii.eqb c " " then (S spaceCount, hexCount)
        else (spaceCount, S hexCount)
      else (spaceCount, hexCount)
  end.

(** Second loop of [escape]. *)
Fixpoint escape_write (s : string) : string :=
  match s with
  | EmptyString => EmptyString
  | String c s' =>
      if Ascii.eqb c " " then String "+" (escape_write s')
      else if shouldEscape c then
        String "%" (String (upperhex (N.shiftr (N_of_ascii c) 4))
                 (String (upperhex (N.land (N_of_ascii c) 15))
                    (escape_write s')))
      else String c (escape_write s')
  end.

(** [QueryEscape(s) = escape(s, encodeQueryComponent)]. *)
Definition QueryEscape (s : string) : string :=
  let '(spaceCount, hexCount) := escape_count s in
  if (spaceCount =? 0)%nat && (hexCount =? 0)%nat then s
  else escape_write s.

Definition take3 (s : string) : string :=
  match s with
  | String a (String b (String c _)) =>
      String a (String b (String c EmptyString))
  | _ => s
  end.

(** First loop of [unescape]: every [%] must be followed by two hex
    digits; counts the escapes and notes a [+]. *)
Fixpoint unescape_check (s : string) : error + (nat * bool) :=
  match s with
  | EmptyString => inr (0%nat, false)
  | String c r =>
      if Ascii.eqb c "%" then
        match r with
        | String a (String b r') =>
            if ishex a && ishex b then
              match unescape_check r' with
              | inl e => inl e
              | inr (n, hasPlus) => inr (S n, hasPlus)
              end
            else inl (EscapeError (take3 s))
        | _ => inl (EscapeError (take3 s))
        end
      else
        match unescape_check r with
        | inl e => inl e
        | inr (n, hasPlus) =>
            inr (n, if Ascii.eqb c "+" then true else hasPlus)
        end
  end.

(** Second loop of [unescape]; it runs on checked input only, where
    a [%] always has its two digits. *)
Fixpoint unescape_write (s : string) : string :=
  match s with
  | EmptyString => EmptyString
  | String c r =>
      if Ascii.eqb c "%" then
        match r with
        | String a (String b r') =>
            String (ascii_of_N (N.lor (N.shiftl (unhex a) 4) (unhex b)))
                   (unescape_write r')
        | _ => EmptyString
        end
      else if Ascii.eqb c "+" then String " " (unescape_write r)
      else String c (unescape_write r)
  end.

(** [QueryUnescape(s) = unescape(s, encodeQueryComponent)]. *)
Definition QueryUnescape (s : string) : string * option error :=
  match unescape_check s with
  | inl e => (EmptyString, Some e)
  | inr (n, hasPlus) =>
      if (n =? 0)%nat && negb hasPlus then (s, None)
      else (unescape_write s, None)
  end.

Local Close Scope char_scope.

(** ** [url.Values]: Go's [map[string][]string] *)
Abbreviation Values := (gmap string (list string)).

(** [v.Add(key, value)]: [v[key] = append(v[key], value)]. *)
Definition Add (key value : string) (v : Values) : Values :=
  <[key := (v !!! key) ++ [value]]> v.

(** [strings.Cut(s, sep)] for a one-byte separator. *)
Fixpoint Cut (sep : ascii) (s : string) : string * string * bool :=
  match s with
  | EmptyString => (EmptyString, EmptyString, false)
  | String c r =>
      if Ascii.eqb c sep then (EmptyString, r, true)
      else let '(before, after, found) := Cut sep r in
           (String c before, after, found)
  end.

(** [strings.Contains(s, sep)] for a one-byte [sep]. *)
Fixpoint Contains (sep : ascii) (s : string) : bool :=
  match s with
  | EmptyString => false
  | String c r => Ascii.eqb c sep || Contains sep r
  end.

Definition first_error (err : option error) (err1 : error) : option error :=
  match err with
  | None => Some err1
  | Some _ => err
  end.

(** The loop [for query != ""] of [parseQuery(m, query)].  Every turn
    cuts at least one byte off [query], so [String.length query] turns
    are enough; [fuel] counts them. *)
Fixpoint parseQuery (fuel : nat) (m : Values) (err : option error)
    (query : string) : Values * option error :=
  match fuel with
  | O => (m, err)
  | S fuel' =>
      match query with
      | EmptyString => (m, err)
      | _ =>
          let '(key, query', _) := Cut "&"%char query in
          if Contains ";"%char key then
            parseQuery fuel' m (Some ErrSemicolon) query'
          else
            match key with
            | EmptyString => parseQuery fuel' m err query'
            | _ =>
                let '(key, value, _) := Cut "="%char key in
                match QueryUnescape key with
                | (_, Some err1) =>
                    parseQuery fuel' m (first_error err err1) query'
                | (key, None) =>
                    match QueryUnescape value with
                    | (_, Some err1) =>
                        parseQuery fuel' m (first_error err err1) query'
                    | (value, None) =>
                        parseQuery fuel' (Add key value m) err query'
                    end
                end
            end
      end
  end.

(** [ParseQuery(query)]: the map of what parsed, and the first error. *)
Definition ParseQuery (query : string) : Values * option error :=
  parseQuery (String.length query) ∅ None query.

(** One turn of the inner loop of [Encode]: the separator unless the
    buffer is still empty, then [key=value]. *)
Definition write_pair (keyEscaped : string) (buf v : string) : string :=
  (if (0 <? String.length buf)%nat then buf +:+ "&" else buf)
    +:+ keyEscaped +:+ "=" +:+ QueryEscape v.

(** [v.Encode()]: the keys in sorted order, each with its values in
    order. *)
Definition Encode (v : Values) : string :=
  if (size v =? 0)%nat then EmptyString
  else
    let keys := merge_sort String.le ((map_to_list v).*1) in
    foldl (λ buf k, foldl (write_pair (QueryEscape k)) buf (v !!! k))
          EmptyString keys.

(** ** [url.URL] *)
Record Userinfo : Type := {
  username : string;
  password : string;
  passwordSet : bool
}.

Record URL : Type := {
  Scheme : string;
  Opaque : string;
  User : option Userinfo;
  Host : string;
  Path : string;
  RawPath : string;
  OmitHost : bool;
  ForceQuery : bool;
  RawQuery : string;
  Fragment : string;
  RawFragment : string
}.

(** [u.RawQuery = raw]. *)
Definition set_RawQuery (raw : string) (u : URL) : URL :=
  {| Scheme := Scheme u; Opaque := Opaque u; User := User u;
     Host := Host u; Path := Path u; RawPath := RawPath u;
     OmitHost := OmitHost u; ForceQuery := ForceQuery u;
     RawQuery := raw;
     Fragment := Fragment u; RawFragment := RawFragment u |}.

(** [u.Query()]: [ParseQuery(u.RawQuery)] with the error dropped. *)
Definition Query (u : URL) : Values := (ParseQuery (RawQuery u)).1.

End url.

(** * net/http: requests, the transport and the client's timeout *)
Module http.

(** [http.Header]: Go's [map[string][]string]. *)
Abbreviation Header := (gmap string (list string)).

(** [http.Request], with the fields the client decides: the method, the
    URL string the request was made for (Go keeps its parse), and the
    header. *)
Record Request : Type := {
  Method : string;
  URL : string;
  Header_ : Header
}.

(** [req.Header.Set(key, value)]: the entry of [key] becomes the one
    value.  The client's only key, [Authorization], is in canonical
    form already. *)
Definition Header_Set (key value : string) (req : Request) : Request :=
  {| Method := Method req; URL := URL req;
     Header_ := <[key := [value]]> (Header_ req) |}.

Record Response : Type := {
  StatusCode : Z;
  Body : string
}.

(** [time.Duration] counts nanoseconds. *)
Definition Second : Z := 1000000000.

(** [http.Client]: only [Timeout] is set by this package. *)
Record Client : Type := { Timeout : Z }.

(** What the network does with a request: how long it takes until [Do]
    returns, with the head of the response in or with the failure, and
    how it ends.  [Do] promises a response whenever it reports no
    error; with an error the response may still be there (a refused
    redirect). *)
Inductive outcome : Type :=
  | Responded (resp : Response)
  | Failed (resp : option Response) (err : error).

Record exchange : Type := { elapsed : Z; result : outcome }.

(** The server and the network between: an answer to every request,
    which may depend on the requests seen before. *)
Definition Network : Type := list Request → Request → exchange.

(** Outcome of a Go call: it returns, or it panics (nil dereference). *)
Inductive res (A : Type) : Type :=
  | Ret (a : A)
  | Panic.
Global Arguments Ret {A} a.
Global Arguments Panic {A}.

(** Computations over the log of requests handed to the transport. *)
Definition M (A : Type) : Type := list Request → res A * list Request.

Global Instance M_ret : MRet M := λ A a log, (Ret a, log).
Global Instance M_bind : MBind M := λ A B f m log,
  match m log with
  | (Ret a, log') => f a log'
  | (Panic, log') => (Panic, log')
  end.

Definition panic {A} : M A := λ log, (Panic, log).

(** [isTokenRune] of [httpguts], on bytes. *)
Definition isToken (c : ascii) : bool :=
  url.byte_in "a" "z" c || url.byte_in "A" "Z" c || url.byte_in "0" "9" c
  || bool_decide (c ∈ ["!"; "#"; "$"; "%"; "&"; "'"; "*"; "+"; "-"; ".";
                       "^"; "_"; "`"; "|"; "~"]%char).

Fixpoint all_bytes (P : ascii → bool) (s : string) : bool :=
  match s with
  | EmptyString => true
  | String c r => P c && all_bytes P r
  end.

Definition validMethod (method : string) : bool :=
  (0 <? String.length method)%nat && all_bytes isToken method.

Section NewRequest.
(** [url.Parse], taken as given. *)
Variable Parse : string → error + url.URL.

(** [http.NewRequest(method, url, nil)]: the method must be a token
    and the URL must parse; the header starts empty. *)
Definition NewRequest (method url : string) : error + Request :=
  let method := if decide (method = "") then "GET" else method in
  if negb (validMethod method) then
    inl (ErrLib "net/http" "invalid method")
  else
    match Parse url with
    | inl err => inl err
    | inr _ => inr {| Method := method; URL := url; Header_ := ∅ |}
    end.
End NewRequest.

(** What [c.Do(req)] returns: when the head of the response is not in
    within a positive [Timeout], a timeout error.  The timer of
    net/http runs on after [Do] has returned and may cut the reading of
    the body; that is not modelled here: [Body] is what the decoder
    gets to read. *)
Definition answer (net : Network) (c : Client) (log : list Request)
    (req : Request) : option Response * option error :=
  let x := net log req in
  if (0 <? Timeout c)%Z && (Timeout c <? elapsed x)%Z then
    (None, Some ErrTimeout)
  else
    match result x with
    | Responded resp => (Some resp, None)
    | Failed resp err => (resp, Some err)
    end.

(** [c.Do(req)]: the request goes out and is logged. *)
Definition Do (net : Network) (c : Client) (req : Request)
    : M (option Response * option error) :=
  λ log, (Ret (answer net c log req), log ++ [req]).

End http.

(** * package gosatnogs *)

Definition baseURL : string := "https://db.satnogs.org/api".

Record urlParam : Type := {
  Key : string;
  Value : string
}.

(** The [baseURL] field is [Client_baseURL] here, as the constant holds
    the name. *)
Record Client : Type := {
  client : http.Client;
  Client_baseURL : string;
  apiKey : string
}.

(** A Go slice: [None] is the nil slice. *)
Abbreviation slice A := (option (list A)).

(** [Timestamp] is a [time.Time], kept as the instant in nanoseconds. *)
Record Telemetry : Type := {
  SatID : string;
  NoradCatID : Z;
  Transmitter : string;
  AppSource : string;
  Decoded : string;
  Frame : string;
  Observer : string;
  Timestamp : Z;
  Version : string;
  ObservationID : Z;
  StationID : Z
}.

Record TelemetryResponse : Type := {
  Next : string;
  Prev : string;
  Results : slice Telemetry
}.

(** [var telemetryResponse TelemetryResponse]: the zero value. *)
Definition zero_TelemetryResponse : TelemetryResponse :=
  {| Next := ""; Prev := ""; Results := None |}.

Definition NewClient (apiKey : string) : Client :=
  {| client := {| http.Timeout := 10 * http.Second |};
     Client_baseURL := baseURL;
     apiKey := apiKey |}.

Section gosatnogs.

(** The library calls the package neither defines nor constrains:
    [url.Parse], the [String] method of [url.URL], the network behind
    [c.client.Do] and [json.NewDecoder(body).Decode(&v)], which fills
    [v] as far as it gets and reports an error or none. *)
Variable Parse : string → error + url.URL.
Variable URL_String : url.URL → string.
Variable net : http.Network.
Variable Decode :
  string → TelemetryResponse → TelemetryResponse * option error.

(** Lines 37-47 of [Get]: the URL the request is made for. *)
Definition Get_url (c : Client) (endpoint : string)
    (params : list urlParam) : error + url.URL :=
  match Parse (Client_baseURL c +:+ endpoint) with
  | inl err => inl err
  | inr u =>
      let q := url.Query u in
      let q := foldl (λ q param, url.Add (Key param) (Value param) q)
                     q params in
      inr (url.set_RawQuery (url.Encode q) u)
  end.

(** Lines 55-58: the authorization header, if an API key is set. *)
Definition authorize (c : Client) (req : http.Request) : http.Request :=
  if decide (apiKey c = "") then req
  else http.Header_Set "Authorization" ("Token " +:+ apiKey c) req.

Definition Get (c : Client) (endpoint : string) (params : list urlParam)
    : http.M (option http.Response * option error) :=
  match Get_url c endpoint params with
  | inl err => mret (None, Some err)
  | inr u =>
      match http.NewRequest Parse "GET" (URL_String u) with
      | inl err => mret (None, Some err)
      | inr req => http.Do net (client c) (authorize c req)
      end
  end.

Definition GetTelemetryResponse (c : Client) (satelliteID : string)
    : http.M (option TelemetryResponse * option error) :=
  '(resp, err) ← Get c "/telemetry/"
      [ {| Key := "sat_id"; Value := satelliteID |};
        {| Key := "format"; Value := "json" |} ];
  match err with
  | Some err => mret (None, Some err)
  | None =>
      match resp with
      | None => http.panic
      | Some resp =>
          let '(telemetryResponse, err) :=
            Decode (http.Body resp) zero_TelemetryResponse in
          match err with
          | Some err => mret (None, Some err)
          | None => mret (Some telemetryResponse, None)
          end
      end
  end.

(** [GetTelemetry] of [src/unnamed/part_000]: through
    [GetTelemetryResponse]. *)
Definition GetTelemetry (c : Client) (satelliteID : string)
    : http.M (slice Telemetry * option error) :=
  '(resp, err) ← GetTelemetryResponse c satelliteID;
  match err with
  | Some err => mret (None, Some err)
  | None =>
      match resp with
      | None => http.panic
      | Some resp => mret (Results resp, None)
      end
  end.

(** [GetTelemetry] of [src/client.go]: the request and the decoding
    written out. *)
Definition GetTelemetry_client_go (c : Client) (satelliteID : string)
    : http.M (slice Telemetry * option error) :=
  '(resp, err) ← Get c "/telemetry/"
      [ {| Key := "sat_id"; Value := satelliteID |};
        {| Key := "format"; Value := "json" |} ];
  match err with
  | Some err => mret (None, Some err)
  | None =>
      match resp with
      | None => http.panic
      | Some resp =>
          let '(telemetryResponse, err) :=
            Decode (http.Body resp) zero_TelemetryResponse in
          match err with
          | Some err => mret (None, Some err)
          | None => mret (Results telemetryResponse, None)
          end
      end
  end.

(** The walkers take [t] by pointer; a page is a non-nil [t]. *)
Definition GetTelemetryResponseNextPage (c : Client)
    (t : TelemetryResponse)
    : http.M (option TelemetryResponse * option error) :=
  if decide (Next t = "") then mret (None, None)
  else
    match http.NewRequest Parse "GET" (Next t) with
    | inl err => mret (None, Some err)
    | inr req =>
        '(resp, err) ← http.Do net (client c) (authorize c req);
        match err with
        | Some err => mret (None, Some err)
        | None =>
            match resp with
            | None => http.panic
            | Some resp =>
                let '(telemetryResponse, err) :=
                  Decode (http.Body resp) zero_TelemetryResponse in
                match err with
                | Some err => mret (None, Some err)
                | None => mret (Some telemetryResponse, None)
                end
            end
        end
    end.

Definition GetTelemetryResponsePrevPage (c : Client)
    (t : TelemetryResponse)
    : http.M (option TelemetryResponse * option error) :=
  if decide (Prev t = "") then mret (None, None)
  else
    match http.NewRequest Parse "GET" (Prev t) with
    | inl err => mret (None, Some err)
    | inr req =>
        '(resp, err) ← http.Do net (client c) (authorize c req);
        match err with
        | Some err => mret (None, Some err)
        | None =>
            match resp with
            | None => http.panic
            | Some resp =>
                let '(telemetryResponse, err) :=
                  Decode (http.Body resp) zero_TelemetryResponse in
                match err with
                | Some err => mret (None, Some err)
                | None => mret (Some telemetryResponse, None)
                end
            end
        end
    end.

End gosatnogs.

(** * Notions the statements use *)

(** [Authorization] as the spec asks for it: absent without a key,
    [Token k] alone with key [k]. *)
Definition auth_rule (k : string) (req : http.Request) : Prop :=
  http.Header_ req !! "Authorization"
  = if decide (k = "") then None else Some ["Token " +:+ k].

(** What a fetch makes of a transport result: the steps after
    [c.client.Do] that the first-page fetch and the walkers share. *)
Definition decoded
    (Decode : string → TelemetryResponse → TelemetryResponse * option error)
    (r : option http.Response * option error)
    : http.res (option TelemetryResponse * option error) :=
  match r with
  | (_, Some err) => http.Ret (None, Some err)
  | (None, None) => http.Panic
  | (Some resp, None) =>
      match Decode (http.Body resp) zero_TelemetryResponse with
      | (_, Some err) => http.Ret (None, Some err)
      | (page, None) => http.Ret (Some page, None)
      end
  end.

(** A fetch as a whole: no request without a well-formed target;
    otherwise the authorized request goes out and its answer is
    decoded. *)
Definition fetch (net : http.Network)
    (Decode : string → TelemetryResponse → TelemetryResponse * option error)
    (c : Client) (target : error + http.Request) (log : list http.Request)
    : http.res (option TelemetryResponse * option error) * list http.Request :=
  match target with
  | inl err => (http.Ret (None, Some err), log)
  | inr req =>
      (decoded Decode (http.answer net (client c) log (authorize c req)),
       log ++ [authorize c req])
  end.

(** The request [Get] makes, if the URL and the request are well
    formed. *)
Definition Get_request (Parse : string → error + url.URL)
    (URL_String : url.URL → string) (c : Client) (endpoint : string)
    (params : list urlParam) : error + http.Request :=
  match Get_url Parse c endpoint params with
  | inl err => inl err
  | inr u => http.NewRequest Parse "GET" (URL_String u)
  end.

(** The parameters of the telemetry endpoint. *)
Definition telemetry_params (satelliteID : string) : list urlParam :=
  [ {| Key := "sat_id"; Value := satelliteID |};
    {| Key := "format"; Value := "json" |} ].

(** What [GetTelemetry] makes of a page result. *)
Definition results_of
    (r : http.res (option TelemetryResponse * option error))
    : http.res (slice Telemetry * option error) :=
  match r with
  | http.Ret (_, Some err) => http.Ret (None, Some err)
  | http.Ret (Some page, None) => http.Ret (Results page, None)
  | http.Ret (None, None) => http.Panic
  | http.Panic => http.Panic
  end.

(** Between [log] and [log'] at most one request went out, and it
    follows the authorization rule of key [k]. *)
Definition sent_authorized (k : string) (log log' : list http.Request)
    : Prop :=
  log' = log ∨ ∃ req, log' = log ++ [req] ∧ auth_rule k req.

(** The bytes that mean something to [ParseQuery]: [&], [;], [=]. *)
Definition query_mark (c : ascii) : bool :=
  Ascii.eqb c "&" || Ascii.eqb c ";" || Ascii.eqb c "=".

Fixpoint has_mark (s : string) : bool :=
  match s with
  | EmptyString => false
  | String c r => query_mark c || has_mark r
  end.

(** One byte through [escape] and back: a byte that is kept is none of
    the bytes [unescape] or [ParseQuery] act on; a byte that is escaped
    is written as two hex digits that read back as the byte. *)
Definition byte_escapes_well (c : ascii) : bool :=
  if url.shouldEscape c then
    let hi := url.upperhex (N.shiftr (N_of_ascii c) 4) in
    let lo := url.upperhex (N.land (N_of_ascii c) 15) in
    url.ishex hi && url.ishex lo
    && Ascii.eqb
         (ascii_of_N (N.lor (N.shiftl (url.unhex hi) 4) (url.unhex lo))) c
    && negb (query_mark hi) && negb (query_mark lo)
  else
    negb (Ascii.eqb c " ") && negb (Ascii.eqb c "%")
    && negb (Ascii.eqb c "+") && negb (query_mark c).

(** One turn of [parseQuery] on a segment [key]: the map and the error
    after it. *)
Definition parse_key (m : url.Values) (err : option error) (key : string)
    : url.Values * option error :=
  if url.Contains ";" key then (m, Some ErrSemicolon)
  else
    match key with
    | EmptyString => (m, err)
    | _ =>
        let '(key, value, _) := url.Cut "=" key in
        match url.QueryUnescape key with
        | (_, Some err1) => (m, url.first_error err err1)
        | (key, None) =>
            match url.QueryUnescape value with
            | (_, Some err1) => (m, url.first_error err err1)
            | (value, None) => (url.Add key value m, err)
            end
        end
    end.

(** [key=value], escaped, as [Encode] writes a pair. *)
Definition segment (k v : string) : string :=
  url.QueryEscape k +:+ "=" +:+ url.QueryEscape v.

(** Two pieces of a query with [&] between, unless one is empty. *)
Definition glue (a b : string) : string :=
  match a, b with
  | EmptyString, _ => b
  | _, EmptyString => a
  | _, _ => a +:+ "&" +:+ b
  end.

Definition join_amp (segs : list string) : string := foldr glue "" segs.

(** The pairs of a map, for the keys in the order given. *)
Definition pairs_of (v : url.Values) (keys : list string)
    : list (string * string) :=
  keys ≫= (λ k, (λ x, (k, x)) <$> v !!! k).

(** No key of the map has an empty list: so are the maps [ParseQuery]
    and [Add] make. *)
Definition lists_nonempty (v : url.Values) : Prop :=
  ∀ k, v !! k ≠ Some [].

(** The values the parameters give for key [k], in order. *)
Definition values_for (k : string) (params : list urlParam) : list string :=
  Value <$> filter (λ p, Key p = k) params.

(** A run that sent [req] after [log] ended in the timeout error. *)
Definition times_out {A} (log : list http.Request) (req : http.Request)
    (run : http.res (option A * option error) * list http.Request) : Prop :=
  run.2 = log ++ [req] → run.1 = http.Ret (None, Some ErrTimeout).

(** The network with every response given status [code]; the rest of
    each exchange is as [net] has it. *)
Definition with_status (code : Z) (net : http.Network) : http.Network :=
  λ log req,
    let x := net log req in
    let recode resp :=
      {| http.StatusCode := code; http.Body := http.Body resp |} in
    {| http.elapsed := http.elapsed x;
       http.result :=
         match http.result x with
         | http.Responded resp => http.Responded (recode resp)
         | http.Failed resp err => http.Failed (recode <$> resp) err
         end |}.

(** A GET with no header but the authorization of key [k]. *)
Definition bare_get (k : string) (req : http.Request) : Prop :=
  http.Method req = "GET"
  ∧ http.Header_ req
    = if decide (k = "") then ∅
      else {[ "Authorization" := ["Token " +:+ k] ]}.

(** Between [log] and [log'] at most one request went out, and it is a
    [bare_get]. *)
Definition sent_bare (k : string) (log log' : list http.Request) : Prop :=
  log' = log ∨ ∃ req, log' = log ++ [req] ∧ bare_get k req.

(** The bytes [Encode] writes: letters, digits, the marks kept by
    [QueryEscape], and [%], [+], [=], [&]. *)
Definition query_byte (c : ascii) : bool :=
  url.byte_in "a" "z" c || url.byte_in "A" "Z" c || url.byte_in "0" "9" c
  || bool_decide (c ∈ ["-"; "_"; "."; "~"; "%"; "+"; "="; "&"]%char).

(** One byte through [escape]: what is written is made of query
    bytes. *)
Definition byte_escapes_to_query_bytes (c : ascii) : bool :=
  if url.shouldEscape c then
    query_byte (url.upperhex (N.shiftr (N_of_ascii c) 4))
    && query_byte (url.upperhex (N.land (N_of_ascii c) 15))
  else query_byte c.

(** What [Do] makes of an exchange that is not cut short. *)
Definition outcome_pair (o : http.outcome)
    : option http.Response * option error :=
  match o with
  | http.Responded resp => (Some resp, None)
  | http.Failed resp err => (resp, Some err)
  end.

(** The page with its two links exchanged. *)
Definition turned (t : TelemetryResponse) : TelemetryResponse :=
  {| Next := Prev t; Prev := Next t; Results := Results t |}.



(** * Test doubles

    Stand-ins for the four library calls, to run the package on concrete
    inputs. *)
Module stub.

Definition mkURL (path query : string) : url.URL :=
  {| url.Scheme := ""; url.Opaque := ""; url.User := None;
     url.Host := ""; url.Path := path; url.RawPath := "";
     url.OmitHost := false; url.ForceQuery := false;
     url.RawQuery := query;
     url.Fragment := ""; url.RawFragment := "" |}.

(** [url.Parse]: refuses a space or a control byte; the query is what
    follows the first [?]. *)
Definition Parse (s : string) : error + url.URL :=
  if http.all_bytes (λ c, negb (url.byte_in "000" " " c)) s then
    let '(path, query, _) := url.Cut "?" s in
    inr (mkURL path query)
  else inl (ErrLib "net/url" "invalid control character in URL").

Definition URL_String (u : url.URL) : string :=
  url.Path u +:+
    (if decide (url.RawQuery u = "") then "" else "?" +:+ url.RawQuery u).

(** A server that takes [d] nanoseconds and sends [body]. *)
Definition net (d : Z) (body : string) : http.Network :=
  λ _ _, {| http.elapsed := d;
            http.result :=
              http.Responded {| http.StatusCode := 200;
                                http.Body := body |} |}.

(** A network that is down. *)
Definition net_down : http.Network :=
  λ _ _, {| http.elapsed := 0;
            http.result :=
              http.Failed None (ErrLib "net" "connection refused") |}.

(** The request for the telemetry of satellite 43770, with key [k]. *)
Definition request1 : http.Request :=
  {| http.Method := "GET";
     http.URL :=
       "https://db.satnogs.org/api/telemetry/?format=json&sat_id=43770";
     http.Header_ := {[ "Authorization" := ["Token k"] ]} |}.

Definition page2 : string :=
  "https://db.satnogs.org/api/telemetry/?sat_id=X&page=2".

Definition record1 : Telemetry :=
  {| SatID := "43770"; NoradCatID := 43770; Transmitter := "";
     AppSource := "network"; Decoded := ""; Frame := "C0FFEE";
     Observer := ""; Timestamp := 1672531200000000000; Version := "";
     ObservationID := 1; StationID := 1 |}.

(** The decoder: two bodies decode, to a last page and to a page with
    a next link; any other body fails after [next] was filled in. *)
Definition Decode (body : string) (v : TelemetryResponse)
    : TelemetryResponse * option error :=
  if decide (body = "last") then
    ({| Next := ""; Prev := ""; Results := Some [record1] |}, None)
  else if decide (body = "more") then
    ({| Next := page2; Prev := ""; Results := Some [] |}, None)
  else
    ({| Next := "partial"; Prev := Prev v; Results := Results v |},
     Some (ErrLib "encoding/json" "unexpected end of JSON input")).

End stub.

Example QueryEscape_ex :
  url.QueryEscape "a b&c#~" = "a+b%26c%23~".
Proof. reflexivity. Qed.

Example QueryUnescape_ex :
  url.QueryUnescape "a+b%26c%23~" = ("a b&c#~", None).
Proof. reflexivity. Qed.

Example QueryUnescape_bad :
  url.QueryUnescape "ab%2" = ("", Some (EscapeError "%2")).
Proof. reflexivity. Qed.

Example Encode_ex :
  url.Encode (url.Add "b" "2" (url.Add "a" "x y" (url.Add "b" "1&" ∅)))
  = "a=x+y&b=1%26&b=2".
Proof. vm_compute. reflexivity. Qed.

Example ParseQuery_ex :
  url.ParseQuery "a=x+y&b=1%26&b=2&&c"
  = (url.Add "c" "" (url.Add "b" "2" (url.Add "b" "1&"
       (url.Add "a" "x y" ∅))), None).
Proof. vm_compute. reflexivity. Qed.

Example Get_without_key :
  (Get stub.Parse stub.URL_String (stub.net 1 "last") (NewClient "")
     "/telemetry/" [ {| Key := "sat_id"; Value := "a b" |} ] []).2
  = [ {| http.Method := "GET";
         http.URL := "https://db.satnogs.org/api/telemetry/?sat_id=a+b";
         http.Header_ := ∅ |} ].
Proof. vm_compute. reflexivity. Qed.

Example NextPage_at_the_end :
  GetTelemetryResponseNextPage stub.Parse (stub.net 1 "last") stub.Decode
    (NewClient "k") {| Next := ""; Prev := ""; Results := Some [] |} []
  = (http.Ret (None, None), []).
Proof. reflexivity. Qed.

Example NextPage_follows :
  GetTelemetryResponseNextPage stub.Parse (stub.net 1 "last") stub.Decode
    (NewClient "") {| Next := stub.page2; Prev := ""; Results := Some [] |} []
  = (http.Ret
       (Some {| Next := ""; Prev := ""; Results := Some [stub.record1] |},
        None),
     [ {| http.Method := "GET"; http.URL := stub.page2;
          http.Header_ := ∅ |} ]).
Proof. vm_compute. reflexivity. Qed.

Example NextPage_network_down :
  GetTelemetryResponseNextPage stub.Parse stub.net_down stub.Decode
    (NewClient "") {| Next := stub.page2; Prev := ""; Results := Some [] |} []
  = (http.Ret (None, Some (ErrLib "net" "connection refused")),
     [ {| http.Method := "GET"; http.URL := stub.page2;
          http.Header_ := ∅ |} ]).
Proof. vm_compute. reflexivity. Qed.

Example GetTelemetry_ex :
  GetTelemetry stub.Parse stub.URL_String (stub.net 1 "last") stub.Decode
    (NewClient "k") "43770" []
  = (http.Ret (Some [stub.record1], None), [stub.request1]).
Proof. vm_compute. reflexivity. Qed.

(** * The client: pagination, authorization, decoding, timeout *)

Lemma NewRequest_GET Parse url req :
  http.NewRequest Parse "GET" url = inr req →
  req = {| http.Method := "GET"; http.URL := url; http.Header_ := ∅ |}
  ∧ ∃ u, Parse url = inr u.
Proof.
  unfold http.NewRequest. simpl.
  destruct (Parse url) as [e|u]; [done|].
  intros [= <-]. eauto.
Qed.

Lemma NewRequest_GET_ok Parse url u :
  Parse url = inr u →
  http.NewRequest Parse "GET" url
  = inr {| http.Method := "GET"; http.URL := url; http.Header_ := ∅ |}.
Proof. intros H. unfold http.NewRequest. simpl. by rewrite H. Qed.

Lemma authorize_rule c req :
  http.Header_ req = ∅ → auth_rule (apiKey c) (authorize c req).
Proof.
  intros Hh. unfold auth_rule, authorize.
  destruct (decide (apiKey c = "")) as [Hk|Hk].
  - by rewrite Hh.
  - simpl. by rewrite lookup_insert_eq.
Qed.

Lemma authorize_target c req :
  http.Method (authorize c req) = http.Method req
  ∧ http.URL (authorize c req) = http.URL req.
Proof. unfold authorize. by destruct (decide _). Qed.

Section client_facts.

Variable Parse : string → error + url.URL.
Variable URL_String : url.URL → string.
Variable net : http.Network.
Variable Decode :
  string → TelemetryResponse → TelemetryResponse * option error.

Local Abbreviation NextPage := (GetTelemetryResponseNextPage Parse net Decode).
Local Abbreviation PrevPage := (GetTelemetryResponsePrevPage Parse net Decode).
Local Abbreviation Get' := (Get Parse URL_String net).
Local Abbreviation Page := (GetTelemetryResponse Parse URL_String net Decode).
Local Abbreviation Get_request' := (Get_request Parse URL_String).
Local Abbreviation Telemetry' :=
  (GetTelemetry Parse URL_String net Decode).
Local Abbreviation Telemetry_go :=
  (GetTelemetry_client_go Parse URL_String net Decode).

Lemma answer_not_nil_nil cl log req :
  (http.answer net cl log req).2 = None →
  is_Some (http.answer net cl log req).1.
Proof.
  unfold http.answer. destruct (_ && _); simpl; [done|].
  destruct (http.result _); simpl; [eauto|done].
Qed.

Lemma decoded_not_nil_nil r :
  (r.2 = None → is_Some r.1) →
  ∃ p e, decoded Decode r = http.Ret (p, e) ∧ (is_Some p ↔ e = None).
Proof.
  destruct r as [[resp|] [err|]]; simpl; intros Hs.
  - eexists _, _. split; [done|]. split; [by intros [? ?]|done].
  - destruct (Decode _ _) as [page [e|]]; eexists _, _; (split; [done|]).
    + split; [by intros [? ?]|done].
    + split; eauto.
  - eexists _, _. split; [done|]. split; [by intros [? ?]|done].
  - by destruct Hs.
Qed.

(** The tail every fetch shares, run on a request. *)
Lemma decode_after_Do c req log :
  ('(resp, err) ← http.Do net (client c) (authorize c req);
   match err with
   | Some err => mret (None, Some err)
   | None =>
       match resp with
       | None => http.panic
       | Some resp =>
           let '(telemetryResponse, err) :=
             Decode (http.Body resp) zero_TelemetryResponse in
           match err with
           | Some err => mret (None, Some err)
           | None => mret (Some telemetryResponse, None)
           end
       end
   end) log = fetch net Decode c (inr req) log.
Proof.
  unfold fetch, mbind, http.M_bind, http.Do.
  destruct (http.answer _ _ _ _) as [[resp|] [err|]]; simpl; try done.
  by destruct (Decode _ _) as [page [e|]].
Qed.

Lemma NextPage_run c t log :
  NextPage c t log
  = if decide (Next t = "") then (http.Ret (None, None), log)
    else fetch net Decode c (http.NewRequest Parse "GET" (Next t)) log.
Proof.
  unfold GetTelemetryResponseNextPage.
  destruct (decide (Next t = "")); [done|].
  destruct (http.NewRequest Parse "GET" (Next t)) as [err|req]; [done|].
  apply decode_after_Do.
Qed.

Lemma PrevPage_run c t log :
  PrevPage c t log
  = if decide (Prev t = "") then (http.Ret (None, None), log)
    else fetch net Decode c (http.NewRequest Parse "GET" (Prev t)) log.
Proof.
  unfold GetTelemetryResponsePrevPage.
  destruct (decide (Prev t = "")); [done|].
  destruct (http.NewRequest Parse "GET" (Prev t)) as [err|req]; [done|].
  apply decode_after_Do.
Qed.

Lemma Get_run c endpoint params log :
  Get' c endpoint params log
  = match Get_request' c endpoint params with
    | inl err => (http.Ret (None, Some err), log)
    | inr req =>
        (http.Ret (http.answer net (client c) log (authorize c req)),
         log ++ [authorize c req])
    end.
Proof.
  unfold Get, Get_request.
  destruct (Get_url _ _ _ _) as [err|u]; [done|].
  by destruct (http.NewRequest _ _ _) as [err|req].
Qed.

Lemma Page_run c s log :
  Page c s log
  = fetch net Decode c (Get_request' c "/telemetry/" (telemetry_params s)) log.
Proof.
  unfold GetTelemetryResponse, mbind, http.M_bind. rewrite Get_run.
  destruct (Get_request _ _ _) as [err|req]; [done|].
  unfold fetch.
  destruct (http.answer _ _ _ _) as [[resp|] [err|]]; simpl; try done.
  by destruct (Decode _ _) as [page [e|]].
Qed.

Lemma fetch_not_nil_nil c target log :
  ∃ p e log', fetch net Decode c target log = (http.Ret (p, e), log')
    ∧ (is_Some p ↔ e = None).
Proof.
  destruct target as [err|req]; simpl.
  - eexists _, _, _. split; [done|]. split; [by intros [? ?]|done].
  - destruct (decoded_not_nil_nil
      (http.answer net (client c) log (authorize c req)))
      as (p & e & -> & Hpe); [apply answer_not_nil_nil|]. eauto.
Qed.

Lemma Telemetry_run c s log :
  Telemetry' c s log = (results_of (Page c s log).1, (Page c s log).2).
Proof.
  unfold GetTelemetry, mbind, http.M_bind.
  destruct (fetch_not_nil_nil c
    (Get_request' c "/telemetry/" (telemetry_params s)) log)
    as (p & e & log' & Hrun & Hpe).
  rewrite <- Page_run in Hrun. rewrite Hrun. simpl.
  by destruct p, e.
Qed.

Lemma Telemetry_go_run c s log :
  Telemetry_go c s log = (results_of (Page c s log).1, (Page c s log).2).
Proof.
  rewrite Page_run.
  unfold GetTelemetry_client_go, mbind, http.M_bind.
  fold (telemetry_params s). rewrite Get_run.
  destruct (Get_request' _ _ _) as [err|req]; [done|].
  unfold fetch.
  destruct (http.answer _ _ _ _) as [[resp|] [err|]]; simpl; try done.
  by destruct (Decode _ _) as [page [e|]].
Qed.

Lemma fetch_sent c target log :
  (∀ req, target = inr req → http.Header_ req = ∅) →
  sent_authorized (apiKey c) log (fetch net Decode c target log).2.
Proof.
  intros Hh. destruct target as [err|req]; simpl; [by left|].
  right. eexists. split; [done|]. by apply authorize_rule, Hh.
Qed.

Lemma NewRequest_header method url req :
  http.NewRequest Parse method url = inr req → http.Header_ req = ∅.
Proof.
  unfold http.NewRequest. destruct (negb _); [done|].
  destruct (Parse url); [done|]. by intros [= <-].
Qed.

Lemma Get_request_header c endpoint params req :
  Get_request' c endpoint params = inr req → http.Header_ req = ∅.
Proof.
  unfold Get_request. destruct (Get_url _ _ _ _); [done|].
  apply NewRequest_header.
Qed.

Lemma fetch_nil_nil c target log :
  (fetch net Decode c target log).1 ≠ http.Ret (None, None).
Proof.
  destruct (fetch_not_nil_nil c target log) as (p & e & log' & -> & Hpe).
  simpl. intros [= -> ->]. destruct Hpe as [_ Hpe]. by destruct Hpe.
Qed.

Lemma NextPage_nil_nil c t log :
  (NextPage c t log).1 = http.Ret (None, None) ↔ Next t = "".
Proof.
  rewrite NextPage_run. destruct (decide (Next t = "")); [done|].
  split; [|done]. intros H. by apply fetch_nil_nil in H.
Qed.

Lemma PrevPage_nil_nil c t log :
  (PrevPage c t log).1 = http.Ret (None, None) ↔ Prev t = "".
Proof.
  rewrite PrevPage_run. destruct (decide (Prev t = "")); [done|].
  split; [|done]. intros H. by apply fetch_nil_nil in H.
Qed.

(** C1. A walker whose link is empty returns [(nil, nil)] and sends
    nothing; and an empty link is the only way to [(nil, nil)]: with a
    link the walker returns a page or an error, whatever the results
    of the page it was given. *)
Theorem walker_terminal c t log :
  (Next t = "" →
   GetTelemetryResponseNextPage Parse net Decode c t log
   = (http.Ret (None, None), log))
  ∧ (Prev t = "" →
     GetTelemetryResponsePrevPage Parse net Decode c t log
     = (http.Ret (None, None), log))
  ∧ ((GetTelemetryResponseNextPage Parse net Decode c t log).1
     = http.Ret (None, None) → Next t = "")
  ∧ ((GetTelemetryResponsePrevPage Parse net Decode c t log).1
     = http.Ret (None, None) → Prev t = "").
Proof.
  repeat split.
  - intros H. rewrite NextPage_run, H. done.
  - intros H. rewrite PrevPage_run, H. done.
  - apply NextPage_nil_nil.
  - apply PrevPage_nil_nil.
Qed.

(** C2. Whatever [Get], [GetTelemetryResponse] or a walker sends
    carries no [Authorization] header when the API key is empty, and
    exactly the one value [Token k] when the key is [k]. *)
Theorem requests_authorized c endpoint params s t log :
  sent_authorized (apiKey c) log
    (Get Parse URL_String net c endpoint params log).2
  ∧ sent_authorized (apiKey c) log
      (GetTelemetryResponse Parse URL_String net Decode c s log).2
  ∧ sent_authorized (apiKey c) log
      (GetTelemetryResponseNextPage Parse net Decode c t log).2
  ∧ sent_authorized (apiKey c) log
      (GetTelemetryResponsePrevPage Parse net Decode c t log).2.
Proof.
  rewrite Get_run, Page_run, NextPage_run, PrevPage_run.
  repeat split.
  - destruct (Get_request' _ _ _) as [err|req] eqn:Hreq; [by left|].
    right. eexists. split; [done|].
    eapply authorize_rule, Get_request_header, Hreq.
  - apply fetch_sent, Get_request_header.
  - destruct (decide _); [by left|].
    apply fetch_sent, NewRequest_header.
  - destruct (decide _); [by left|].
    apply fetch_sent, NewRequest_header.
Qed.

Lemma fetch_follows c url u log :
  Parse url = inr u →
  ∃ req, (fetch net Decode c (http.NewRequest Parse "GET" url) log).2
         = log ++ [req]
    ∧ http.Method req = "GET" ∧ http.URL req = url.
Proof.
  intros Hu. rewrite (NewRequest_GET_ok _ _ _ Hu). simpl.
  eexists. split; [done|].
  by destruct (authorize_target c
    {| http.Method := "GET"; http.URL := url; http.Header_ := ∅ |}).
Qed.

(** C3. With a link that is a well-formed URL, the walker sends one
    request: a GET whose URL is the link as the page holds it.  The
    client's base URL plays no part. *)
Theorem walker_follows_link c t log :
  (Next t ≠ "" → (∃ u, Parse (Next t) = inr u) →
   ∃ req,
     (GetTelemetryResponseNextPage Parse net Decode c t log).2
     = log ++ [req]
     ∧ http.Method req = "GET" ∧ http.URL req = Next t)
  ∧ (Prev t ≠ "" → (∃ u, Parse (Prev t) = inr u) →
     ∃ req,
       (GetTelemetryResponsePrevPage Parse net Decode c t log).2
       = log ++ [req]
       ∧ http.Method req = "GET" ∧ http.URL req = Prev t).
Proof.
  rewrite NextPage_run, PrevPage_run. split; intros Hne [u Hu].
  - destruct (decide (Next t = "")); [done|]. by eapply fetch_follows.
  - destruct (decide (Prev t = "")); [done|]. by eapply fetch_follows.
Qed.

Lemma fetch_decode_failure c req resp partial e log :
  http.answer net (client c) log (authorize c req) = (Some resp, None) →
  Decode (http.Body resp) zero_TelemetryResponse = (partial, Some e) →
  fetch net Decode c (inr req) log
  = (http.Ret (None, Some e), log ++ [authorize c req]).
Proof. intros Ha Hd. simpl. rewrite Ha. simpl. by rewrite Hd. Qed.

(** C4. When the decoder reports an error on the body of a response,
    the fetch returns that error and no page, whatever the decoder had
    filled in: [GetTelemetryResponse], both [GetTelemetry] and both
    walkers. *)
Theorem decode_failure c resp partial e log :
  Decode (http.Body resp) zero_TelemetryResponse = (partial, Some e) →
  (∀ s log',
     Get Parse URL_String net c "/telemetry/" (telemetry_params s) log
     = (http.Ret (Some resp, None), log') →
     GetTelemetryResponse Parse URL_String net Decode c s log
     = (http.Ret (None, Some e), log')
     ∧ GetTelemetry Parse URL_String net Decode c s log
       = (http.Ret (None, Some e), log')
     ∧ GetTelemetry_client_go Parse URL_String net Decode c s log
       = (http.Ret (None, Some e), log'))
  ∧ (∀ t req,
       Next t ≠ "" → http.NewRequest Parse "GET" (Next t) = inr req →
       http.answer net (client c) log (authorize c req)
       = (Some resp, None) →
       GetTelemetryResponseNextPage Parse net Decode c t log
       = (http.Ret (None, Some e), log ++ [authorize c req]))
  ∧ (∀ t req,
       Prev t ≠ "" → http.NewRequest Parse "GET" (Prev t) = inr req →
       http.answer net (client c) log (authorize c req)
       = (Some resp, None) →
       GetTelemetryResponsePrevPage Parse net Decode c t log
       = (http.Ret (None, Some e), log ++ [authorize c req])).
Proof.
  intros Hd. repeat split.
  - revert H. rewrite Get_run, Page_run.
    destruct (Get_request' _ _ _) as [err|req]; [done|].
    intros [= Ha <-]. by eapply fetch_decode_failure.
  - revert H. rewrite Telemetry_run, Get_run, Page_run.
    destruct (Get_request' _ _ _) as [err|req]; [done|].
    intros [= Ha <-].
    by rewrite (fetch_decode_failure _ _ _ _ _ _ Ha Hd).
  - revert H. rewrite Telemetry_go_run, Get_run, Page_run.
    destruct (Get_request' _ _ _) as [err|req]; [done|].
    intros [= Ha <-].
    by rewrite (fetch_decode_failure _ _ _ _ _ _ Ha Hd).
  - intros t req Hne Hreq Ha. rewrite NextPage_run.
    destruct (decide _); [done|]. rewrite Hreq.
    by eapply fetch_decode_failure.
  - intros t req Hne Hreq Ha. rewrite PrevPage_run.
    destruct (decide _); [done|]. rewrite Hreq.
    by eapply fetch_decode_failure.
Qed.

(** C8. [GetTelemetry] returns the results of the page
    [GetTelemetryResponse] returns, or its error, after the same
    request; and the two versions of [GetTelemetry], the one that goes
    through [GetTelemetryResponse] and the one of [client.go] that
    decodes by itself, are the same function. *)
Theorem GetTelemetry_first_page c s log :
  GetTelemetry Parse URL_String net Decode c s log
  = GetTelemetry_client_go Parse URL_String net Decode c s log
  ∧ ∃ p e log',
      GetTelemetryResponse Parse URL_String net Decode c s log
      = (http.Ret (p, e), log')
      ∧ GetTelemetry Parse URL_String net Decode c s log
        = (http.Ret (p ≫= Results, e), log').
Proof.
  rewrite Telemetry_run, Telemetry_go_run. split; [done|].
  rewrite Page_run.
  destruct (fetch_not_nil_nil c
    (Get_request' c "/telemetry/" (telemetry_params s)) log)
    as (p & e & log' & -> & Hpe).
  exists p, e, log'. split; [done|]. simpl.
  destruct p as [page|], e as [err|]; try done.
  - destruct Hpe as [Hpe _]. by specialize (Hpe (ex_intro _ _ eq_refl)).
  - destruct Hpe as [_ Hpe]. by destruct Hpe.
Qed.

(** C10. [GetTelemetryResponse] returns, and returns a page exactly
    when it returns no error: never [(nil, nil)], which a walker
    returns, and only on an empty link. *)
Theorem Page_not_nil_nil c s log :
  (∃ p e log',
     GetTelemetryResponse Parse URL_String net Decode c s log
     = (http.Ret (p, e), log')
     ∧ (is_Some p ↔ e = None))
  ∧ ∀ t,
      ((GetTelemetryResponseNextPage Parse net Decode c t log).1
       = http.Ret (None, None) ↔ Next t = "")
      ∧ ((GetTelemetryResponsePrevPage Parse net Decode c t log).1
         = http.Ret (None, None) ↔ Prev t = "").
Proof.
  split.
  - rewrite Page_run. apply fetch_not_nil_nil.
  - intros t. split; [apply NextPage_nil_nil|apply PrevPage_nil_nil].
Qed.

Lemma answer_timeout cl log req :
  (0 < http.Timeout cl)%Z →
  (http.Timeout cl < http.elapsed (net log req))%Z →
  http.answer net cl log req = (None, Some ErrTimeout).
Proof.
  intros H0 Hlate. unfold http.answer.
  apply Z.ltb_lt in H0, Hlate. by rewrite H0, Hlate.
Qed.

Lemma log_grows_by_one (log : list http.Request) req req' :
  log ++ [req] = log ++ [req'] → req = req'.
Proof. intros H. apply app_inv_head in H. by injection H. Qed.

Lemma log_does_not_grow (log : list http.Request) req :
  log ≠ log ++ [req].
Proof.
  intros H. apply (f_equal length) in H. rewrite length_app in H.
  simpl in H. lia.
Qed.

Lemma fetch_timeout k target log req :
  (fetch net Decode (NewClient k) target log).2 = log ++ [req] →
  (10 * http.Second < http.elapsed (net log req))%Z →
  (fetch net Decode (NewClient k) target log).1
  = http.Ret (None, Some ErrTimeout).
Proof.
  destruct target as [err|req0]; simpl.
  - intros H. by apply log_does_not_grow in H.
  - intros <-%log_grows_by_one Hlate.
    by rewrite answer_timeout.
Qed.

(** X15. A client made by [NewClient] has a timeout of ten seconds on
    the one [http.Client] every operation uses: when [Do] has not
    returned within ten seconds of the request an operation sends, the
    operation returns the timeout error.  (Of the time until [Do]
    returns only; the cut of a slow body read is not covered.) *)
Theorem slow_exchange_times_out k endpoint params s t log req :
  (10 * http.Second < http.elapsed (net log req))%Z →
  http.Timeout (client (NewClient k)) = 10000000000%Z
  ∧ times_out log req
      (Get Parse URL_String net (NewClient k) endpoint params log)
  ∧ times_out log req
      (GetTelemetryResponse Parse URL_String net Decode (NewClient k) s log)
  ∧ times_out log req
      (GetTelemetry Parse URL_String net Decode (NewClient k) s log)
  ∧ times_out log req
      (GetTelemetry_client_go Parse URL_String net Decode (NewClient k) s log)
  ∧ times_out log req
      (GetTelemetryResponseNextPage Parse net Decode (NewClient k) t log)
  ∧ times_out log req
      (GetTelemetryResponsePrevPage Parse net Decode (NewClient k) t log).
Proof.
  unfold times_out.
  intros Hlate. split; [done|].
  rewrite Telemetry_run, Telemetry_go_run, Get_run, Page_run,
    NextPage_run, PrevPage_run.
  repeat split.
  - destruct (Get_request' _ _ _) as [err|req0]; simpl.
    + intros H. by apply log_does_not_grow in H.
    + intros <-%log_grows_by_one. by rewrite answer_timeout.
  - intros H. by apply (fetch_timeout _ _ _ req).
  - simpl. intros H. by rewrite (fetch_timeout _ _ _ req).
  - simpl. intros H. by rewrite (fetch_timeout _ _ _ req).
  - destruct (decide _); simpl.
    + intros H. by apply log_does_not_grow in H.
    + intros H. by apply (fetch_timeout _ _ _ req).
  - destruct (decide _); simpl.
    + intros H. by apply log_does_not_grow in H.
    + intros H. by apply (fetch_timeout _ _ _ req).
Qed.

End client_facts.

(** * net/url: escaping round trip *)

Lemma string_app_cons c s t : String c s +:+ t = String c (s +:+ t).
Proof. reflexivity. Qed.

Lemma string_app_nil_l s : "" +:+ s = s.
Proof. reflexivity. Qed.

Lemma string_app_nil_r s : s +:+ "" = s.
Proof. induction s as [|c s IH]; [done|]. by rewrite string_app_cons, IH. Qed.

Lemma string_app_assoc s t u : (s +:+ t) +:+ u = s +:+ t +:+ u.
Proof.
  induction s as [|c s IH]; [done|]. by rewrite !string_app_cons, IH.
Qed.

Lemma string_app_length s t :
  String.length (s +:+ t) = (String.length s + String.length t)%nat.
Proof.
  induction s as [|c s IH]; [done|]. rewrite string_app_cons. simpl.
  by rewrite IH.
Qed.

(** Every byte, as [escape] writes it and [unescape] reads it back. *)
Lemma byte_round_trip c :
  byte_escapes_well c = true.
Proof. by destruct c as [[] [] [] [] [] [] [] []]. Qed.

Lemma shouldEscape_false c :
  url.shouldEscape c = false →
  Ascii.eqb c " " = false ∧ Ascii.eqb c "%" = false
  ∧ Ascii.eqb c "+" = false ∧ query_mark c = false.
Proof.
  intros H. pose proof (byte_round_trip c) as Hc.
  unfold byte_escapes_well in Hc. rewrite H in Hc.
  repeat (apply andb_true_iff in Hc as [Hc ?]).
  repeat split; by apply negb_true_iff.
Qed.

Lemma shouldEscape_true c :
  url.shouldEscape c = true →
  let hi := url.upperhex (N.shiftr (N_of_ascii c) 4) in
  let lo := url.upperhex (N.land (N_of_ascii c) 15) in
  url.ishex hi = true ∧ url.ishex lo = true
  ∧ ascii_of_N (N.lor (N.shiftl (url.unhex hi) 4) (url.unhex lo)) = c
  ∧ query_mark hi = false ∧ query_mark lo = false.
Proof.
  intros H. pose proof (byte_round_trip c) as Hc.
  unfold byte_escapes_well in Hc. rewrite H in Hc.
  repeat (apply andb_true_iff in Hc as [Hc ?]).
  repeat split; try done; try by apply negb_true_iff.
  by apply Ascii.eqb_eq.
Qed.

Lemma escape_write_id s :
  url.escape_count s = (0, 0)%nat → url.escape_write s = s.
Proof.
  induction s as [|c s IH]; [done|]. simpl.
  destruct (url.escape_count s) as [spaceCount hexCount].
  destruct (url.shouldEscape c) eqn:Hc.
  - by destruct (Ascii.eqb c " ").
  - intros [= -> ->]. destruct (shouldEscape_false c Hc) as (-> & _).
    by rewrite IH.
Qed.

Lemma QueryEscape_write s : url.QueryEscape s = url.escape_write s.
Proof.
  unfold url.QueryEscape.
  destruct (url.escape_count s) as [spaceCount hexCount] eqn:Hn.
  destruct spaceCount, hexCount; simpl; try done.
  by rewrite escape_write_id.
Qed.

Lemma unescape_check_escape s :
  ∃ n hasPlus, url.unescape_check (url.escape_write s) = inr (n, hasPlus).
Proof.
  induction s as [|c s (n & hasPlus & IH)]; [by eexists _, _|].
  simpl. destruct (Ascii.eqb c " ") eqn:Hsp.
  - simpl. rewrite IH. by eexists _, _.
  - destruct (url.shouldEscape c) eqn:Hc.
    + destruct (shouldEscape_true c Hc) as (Hhi & Hlo & _).
      simpl. rewrite Hhi, Hlo, IH. by eexists _, _.
    + destruct (shouldEscape_false c Hc) as (_ & Hpc & _).
      simpl. rewrite Hpc, IH. by eexists _, _.
Qed.

Lemma unescape_write_escape s :
  url.unescape_write (url.escape_write s) = s.
Proof.
  induction s as [|c s IH]; [done|].
  simpl. destruct (Ascii.eqb c " ") eqn:Hsp.
  - apply Ascii.eqb_eq in Hsp as ->. simpl. by rewrite IH.
  - destruct (url.shouldEscape c) eqn:Hc.
    + destruct (shouldEscape_true c Hc) as (_ & _ & Hb & _).
      simpl. by rewrite Hb, IH.
    + destruct (shouldEscape_false c Hc) as (_ & Hpc & Hpl & _).
      simpl. by rewrite Hpc, Hpl, IH.
Qed.

Lemma unescape_write_id t :
  url.unescape_check t = inr (0%nat, false) → url.unescape_write t = t.
Proof.
  induction t as [|c t IH]; [done|]. simpl.
  destruct (Ascii.eqb c "%").
  - destruct t as [|a [|b t]]; try done.
    destruct (_ && _); [|done].
    by destruct (url.unescape_check t) as [e|[n hasPlus]].
  - destruct (url.unescape_check t) as [e|[n hasPlus]]; [done|].
    destruct (Ascii.eqb c "+"); [done|].
    intros [= -> ->]. by rewrite IH.
Qed.

Lemma QueryUnescape_write t n hasPlus :
  url.unescape_check t = inr (n, hasPlus) →
  url.QueryUnescape t = (url.unescape_write t, None).
Proof.
  intros H. unfold url.QueryUnescape. rewrite H.
  destruct n, hasPlus; simpl; try done.
  by rewrite unescape_write_id.
Qed.

(** Unescaping an escaped string gives the string back, with no
    error. *)
Lemma QueryUnescape_QueryEscape s :
  url.QueryUnescape (url.QueryEscape s) = (s, None).
Proof.
  rewrite QueryEscape_write.
  destruct (unescape_check_escape s) as (n & hasPlus & H).
  by rewrite (QueryUnescape_write _ _ _ H), unescape_write_escape.
Qed.

Lemma Contains_mark c s :
  url.Contains c s = true → query_mark c = true → has_mark s = true.
Proof.
  intros H Hc. induction s as [|a s IH]; [done|]. simpl in *.
  apply orb_true_iff in H as [->%Ascii.eqb_eq|H].
  - by rewrite Hc.
  - rewrite IH by done. apply orb_true_r.
Qed.

(** An escaped string holds none of [&], [;] and [=]. *)
Lemma QueryEscape_no_mark s : has_mark (url.QueryEscape s) = false.
Proof.
  rewrite QueryEscape_write.
  induction s as [|c s IH]; [done|].
  simpl. destruct (Ascii.eqb c " ") eqn:Hsp; [done|].
  destruct (url.shouldEscape c) eqn:Hc.
  - destruct (shouldEscape_true c Hc) as (_ & _ & _ & Hhi & Hlo).
    simpl. by rewrite Hhi, Hlo, IH.
  - destruct (shouldEscape_false c Hc) as (_ & _ & _ & Hm).
    simpl. by rewrite Hm, IH.
Qed.

(** * net/url: [ParseQuery] reads back what [Encode] writes *)

Lemma Contains_no_mark c s :
  has_mark s = false → query_mark c = true → url.Contains c s = false.
Proof.
  intros Hs Hc. destruct (url.Contains c s) eqn:H; [|done].
  by rewrite (Contains_mark _ _ H Hc) in Hs.
Qed.

Lemma Cut_found sep a b :
  url.Contains sep a = false →
  url.Cut sep (a +:+ String sep b) = (a, b, true).
Proof.
  induction a as [|c a IH]; simpl.
  - intros _. by rewrite Ascii.eqb_refl.
  - intros [Hc Ha]%orb_false_iff. by rewrite Hc, IH.
Qed.

Lemma Cut_not_found sep a :
  url.Contains sep a = false → url.Cut sep a = (a, "", false).
Proof.
  induction a as [|c a IH]; simpl; [done|].
  intros [Hc Ha]%orb_false_iff. by rewrite Hc, IH.
Qed.

Lemma Cut_shorter sep q key q' found :
  q ≠ "" → url.Cut sep q = (key, q', found) →
  (String.length q' < String.length q)%nat.
Proof.
  revert key q' found. induction q as [|c q IH]; [done|].
  intros key q' found _. simpl.
  destruct (Ascii.eqb c sep); [intros [= _ <- _]; lia|].
  destruct (url.Cut sep q) as [[before after] f] eqn:Hcut.
  intros [= _ <- _]. destruct q as [|c' q].
  - simpl in Hcut. injection Hcut as _ <- _. simpl. lia.
  - specialize (IH _ _ _ ltac:(done) eq_refl). simpl in *. lia.
Qed.

(** One turn of the loop of [parseQuery]. *)
Lemma parseQuery_turn fuel m err q :
  q ≠ "" →
  url.parseQuery (S fuel) m err q
  = url.parseQuery fuel (parse_key m err (url.Cut "&" q).1.1).1
      (parse_key m err (url.Cut "&" q).1.1).2 (url.Cut "&" q).1.2.
Proof.
  intros Hq. destruct q as [|c q]; [done|].
  unfold parse_key. cbn [url.parseQuery].
  destruct (url.Cut "&" (String c q)) as [[key q'] found]. simpl.
  destruct (url.Contains ";" key); [done|].
  destruct key as [|k key]; [done|].
  destruct (url.Cut "=" (String k key)) as [[key' value] found'].
  destruct (url.QueryUnescape key') as [key'' [err1|]]; [done|].
  by destruct (url.QueryUnescape value) as [value' [err1|]].
Qed.

Lemma parseQuery_empty fuel m err : url.parseQuery fuel m err "" = (m, err).
Proof. by destruct fuel. Qed.

(** The fuel [ParseQuery] gives its loop is enough: more changes
    nothing. *)
Lemma parseQuery_fuel fuel m err q :
  (String.length q ≤ fuel)%nat →
  url.parseQuery fuel m err q = url.parseQuery (String.length q) m err q.
Proof.
  remember (String.length q) as n eqn:Hn.
  revert fuel m err q Hn.
  induction n as [n IH] using lt_wf_ind. intros fuel m err q -> Hle.
  destruct (decide (q = "")) as [->|Hq].
  { by rewrite !parseQuery_empty. }
  destruct fuel as [|fuel]; [destruct q; simpl in *; [done|lia]|].
  destruct (String.length q) as [|n] eqn:Hlen; [by destruct q|].
  rewrite !parseQuery_turn by done.
  destruct (url.Cut "&" q) as [[key q'] found] eqn:Hcut. simpl.
  pose proof (Cut_shorter _ _ _ _ _ Hq Hcut) as Hlt.
  rewrite (IH (String.length q') ltac:(lia) fuel) by (done || lia).
  by rewrite (IH (String.length q') ltac:(lia) n) by (done || lia).
Qed.

Lemma Contains_app c s t :
  url.Contains c (s +:+ t) = url.Contains c s || url.Contains c t.
Proof.
  induction s as [|a s IH]; [done|].
  rewrite string_app_cons. cbn [url.Contains]. by rewrite IH, orb_assoc.
Qed.

Lemma segment_no_mark_parts k v :
  url.Contains "&" (segment k v) = false
  ∧ url.Contains ";" (segment k v) = false
  ∧ segment k v ≠ "".
Proof.
  assert (∀ c, Ascii.eqb "=" c = false → query_mark c = true →
    url.Contains c (segment k v) = false) as Hno.
  { intros c Hc Hm. unfold segment.
    rewrite !Contains_app. cbn [url.Contains]. rewrite Hc.
    by rewrite !(Contains_no_mark c _ (QueryEscape_no_mark _) Hm). }
  split; [by apply Hno|]. split; [by apply Hno|].
  unfold segment. by destruct (url.QueryEscape k).
Qed.

Lemma parse_key_segment m err k v :
  parse_key m err (segment k v) = (url.Add k v m, err).
Proof.
  destruct (segment_no_mark_parts k v) as (_ & Hsemi & Hne).
  unfold parse_key. rewrite Hsemi.
  destruct (segment k v) as [|c s] eqn:Hseg; [done|]. rewrite <- Hseg.
  unfold segment.
  change ("=" +:+ url.QueryEscape v)
    with (String "="%char (url.QueryEscape v)).
  rewrite Cut_found
    by (by apply Contains_no_mark; [apply QueryEscape_no_mark|]).
  by rewrite !QueryUnescape_QueryEscape.
Qed.

Lemma glue_nil_r a : glue a "" = a.
Proof. unfold glue. by destruct a. Qed.

Lemma glue_assoc a b c : glue (glue a b) c = glue a (glue b c).
Proof.
  unfold glue. destruct a as [|x a]; [done|].
  destruct b as [|y b]; [done|]. destruct c as [|z c]; [done|].
  rewrite !string_app_cons. by rewrite string_app_assoc.
Qed.

Lemma write_pair_glue k buf v :
  url.write_pair (url.QueryEscape k) buf v = glue buf (segment k v).
Proof.
  unfold url.write_pair, glue, segment.
  destruct buf as [|c buf]; [done|].
  destruct (url.QueryEscape k +:+ "=" +:+ url.QueryEscape v) eqn:H.
  { by destruct (url.QueryEscape k). }
  cbn [String.length Nat.ltb Nat.leb]. by rewrite string_app_assoc.
Qed.

Lemma write_all_glue buf pairs :
  foldl (λ buf p, url.write_pair (url.QueryEscape p.1) buf p.2) buf pairs
  = glue buf (join_amp ((λ p, segment p.1 p.2) <$> pairs)).
Proof.
  revert buf. induction pairs as [|[k v] pairs IH]; intros buf; simpl.
  - by rewrite glue_nil_r.
  - by rewrite IH, write_pair_glue, glue_assoc.
Qed.

Lemma join_amp_app l1 l2 :
  join_amp (l1 ++ l2) = glue (join_amp l1) (join_amp l2).
Proof.
  induction l1 as [|a l1 IH]; [done|].
  simpl. by rewrite IH, glue_assoc.
Qed.

(** [Encode] writes the pairs of the map, key by key in sorted order,
    as segments joined by [&]. *)
Lemma Encode_join (v : url.Values) :
  url.Encode v
  = join_amp ((λ p, segment p.1 p.2)
      <$> pairs_of v (merge_sort String.le ((map_to_list v).*1))).
Proof.
  unfold url.Encode. destruct (size v =? 0)%nat eqn:Hsz.
  - apply Nat.eqb_eq, map_size_empty_iff in Hsz as ->.
    by rewrite map_to_list_empty.
  - generalize (merge_sort String.le (map_to_list v).*1). intros keys.
    change (join_amp ((λ p, segment p.1 p.2) <$> pairs_of v keys))
      with (glue "" (join_amp ((λ p, segment p.1 p.2) <$> pairs_of v keys))).
    generalize "". induction keys as [|k keys IH]; intros buf.
    + simpl. by rewrite glue_nil_r.
    + simpl. rewrite IH. unfold pairs_of. simpl.
      rewrite fmap_app, join_amp_app, <- glue_assoc. f_equal.
      rewrite <- write_all_glue.
      generalize (v !!! k). intros vs. revert buf.
      induction vs as [|x vs IHvs]; intros buf; [done|]. simpl.
      by rewrite IHvs.
Qed.

Lemma glue_amp a b : a ≠ "" → b ≠ "" → glue a b = a +:+ String "&" b.
Proof. by destruct a, b. Qed.

Lemma parseQuery_join pairs fuel m err :
  (String.length (join_amp ((λ p, segment p.1 p.2) <$> pairs)) ≤ fuel)%nat →
  url.parseQuery fuel m err (join_amp ((λ p, segment p.1 p.2) <$> pairs))
  = (foldl (λ m p, url.Add p.1 p.2 m) m pairs, err).
Proof.
  revert fuel m. induction pairs as [|[k v] pairs IH]; intros fuel m Hlen.
  { apply parseQuery_empty. }
  destruct (segment_no_mark_parts k v) as (Hamp & _ & Hne).
  cbn [fmap list_fmap join_amp foldr fst snd] in *.
  fold (join_amp ((λ p, segment p.1 p.2) <$> pairs)) in *.
  set (rest := join_amp ((λ p, segment p.1 p.2) <$> pairs)) in *.
  assert (glue (segment k v) rest ≠ "") as Hq.
  { unfold glue. destruct (segment k v); [done|]. by destruct rest. }
  destruct fuel as [|fuel].
  { destruct (glue (segment k v) rest); [done|]. simpl in Hlen. lia. }
  rewrite parseQuery_turn by done.
  destruct (decide (rest = "")) as [Hrest|Hrest].
  - rewrite Hrest, glue_nil_r, Cut_not_found by done. simpl.
    rewrite parse_key_segment. simpl. rewrite <- Hrest.
    apply IH. fold rest. rewrite Hrest. simpl. lia.
  - rewrite glue_amp, Cut_found by done. simpl.
    rewrite parse_key_segment. simpl. apply IH. fold rest.
    rewrite glue_amp, string_app_length in Hlen by done.
    simpl in Hlen. lia.
Qed.

Lemma Add_lookup_total k v (m : url.Values) j :
  url.Add k v m !!! j
  = if decide (k = j) then (m !!! k) ++ [v] else m !!! j.
Proof.
  unfold url.Add. destruct (decide (k = j)) as [->|Hne].
  - by rewrite lookup_total_insert_eq.
  - by rewrite lookup_total_insert_ne.
Qed.

Lemma lists_nonempty_Add k v m :
  lists_nonempty m → lists_nonempty (url.Add k v m).
Proof.
  intros Hm j. unfold url.Add. destruct (decide (k = j)) as [->|Hne].
  - rewrite lookup_insert_eq. intros [= H]. by destruct (m !!! j).
  - rewrite lookup_insert_ne by done. apply Hm.
Qed.

Lemma lists_nonempty_fold {A} (f : A → string * string) l m :
  lists_nonempty m →
  lists_nonempty (foldl (λ m x, url.Add (f x).1 (f x).2 m) m l).
Proof.
  revert m. induction l as [|x l IH]; intros m Hm; [done|].
  simpl. by apply IH, lists_nonempty_Add.
Qed.

Lemma fold_Add_lookup_total {A} (f : A → string * string) l
    (m : url.Values) j :
  foldl (λ m x, url.Add (f x).1 (f x).2 m) m l !!! j
  = m !!! j ++ ((λ x, (f x).2) <$> filter (λ x, (f x).1 = j) l).
Proof.
  revert m. induction l as [|x l IH]; intros m; simpl.
  { by rewrite app_nil_r. }
  rewrite IH, Add_lookup_total, filter_cons.
  destruct (decide ((f x).1 = j)) as [<-|Hne]; [|done].
  by rewrite <- app_assoc.
Qed.

(** Maps without empty lists are equal when they give every key the
    same values. *)
Lemma lists_nonempty_eq (m1 m2 : url.Values) :
  lists_nonempty m1 → lists_nonempty m2 →
  (∀ j, m1 !!! j = m2 !!! j) → m1 = m2.
Proof.
  intros H1 H2 Heq. apply map_eq. intros j.
  specialize (Heq j). rewrite !lookup_total_alt in Heq.
  specialize (H1 j). specialize (H2 j).
  destruct (m1 !! j) as [l1|], (m2 !! j) as [l2|]; simpl in *;
    congruence.
Qed.

Lemma filter_pairs_of (v : url.Values) keys j :
  NoDup keys →
  (filter (λ p, p.1 = j) (pairs_of v keys)).*2
  = if decide (j ∈ keys) then v !!! j else [].
Proof.
  unfold pairs_of. induction 1 as [|k keys Hk Hnd IH]; [done|].
  rewrite bind_cons, filter_app, fmap_app, IH.
  destruct (decide (k = j)) as [->|Hne].
  - destruct (decide (j ∈ j :: keys)) as [_|Hn];
      [|exfalso; apply Hn; constructor].
    destruct (decide (j ∈ keys)); [done|].
    rewrite app_nil_r. generalize (v !!! j). intros vs.
    induction vs as [|x vs IHvs]; [done|].
    rewrite fmap_cons, filter_cons_True by done. simpl. f_equal.
    apply IHvs.
  - assert ((filter (λ p, p.1 = j) ((λ x, (k, x)) <$> v !!! k)).*2 = [])
      as ->.
    { generalize (v !!! k). intros vs.
      induction vs as [|x vs IHvs]; [done|].
      by rewrite fmap_cons, filter_cons_False. }
    simpl. destruct (decide (j ∈ keys)) as [Hin|Hin].
    + destruct (decide (j ∈ k :: keys)) as [_|Hn]; [done|].
      exfalso. apply Hn. by constructor.
    + destruct (decide (j ∈ k :: keys)) as [Hn|_]; [|done].
      inversion Hn; by subst.
Qed.

(** [ParseQuery] reads back the map [Encode] wrote, with no error. *)
Lemma ParseQuery_Encode (v : url.Values) :
  lists_nonempty v → url.ParseQuery (url.Encode v) = (v, None).
Proof.
  intros Hv. unfold url.ParseQuery. rewrite Encode_join.
  rewrite parseQuery_join by done. f_equal.
  set (keys := merge_sort String.le (map_to_list v).*1).
  assert (keys ≡ₚ (map_to_list v).*1) as Hperm
    by apply merge_sort_Permutation.
  assert (NoDup keys) as Hnd.
  { rewrite Hperm. apply NoDup_fst_map_to_list. }
  apply lists_nonempty_eq; [|done|].
  { apply (lists_nonempty_fold (λ p, p)). by intros k; rewrite lookup_empty. }
  intros j. rewrite (fold_Add_lookup_total (λ p, p)).
  rewrite lookup_total_empty. simpl.
  change ((λ x : string * string, x.2) <$> ?l) with (l.*2).
  rewrite filter_pairs_of by done.
  destruct (decide (j ∈ keys)) as [Hin|Hin]; [done|].
  rewrite lookup_total_alt. destruct (v !! j) as [vs|] eqn:Hj; [|done].
  exfalso. apply Hin. rewrite Hperm.
  apply list_elem_of_fmap. exists (j, vs). split; [done|].
  by apply elem_of_map_to_list.
Qed.

Lemma parse_key_nonempty m err key :
  lists_nonempty m → lists_nonempty (parse_key m err key).1.
Proof.
  intros Hm. unfold parse_key.
  destruct (url.Contains ";" key); [done|].
  destruct key as [|c key]; [done|].
  destruct (url.Cut "=" (String c key)) as [[k v] found].
  destruct (url.QueryUnescape k) as [k' [err1|]]; [done|].
  destruct (url.QueryUnescape v) as [v' [err1|]]; [done|].
  by apply lists_nonempty_Add.
Qed.

Lemma parseQuery_nonempty fuel m err q :
  lists_nonempty m → lists_nonempty (url.parseQuery fuel m err q).1.
Proof.
  revert m err q. induction fuel as [|fuel IH]; intros m err q Hm; [done|].
  destruct (decide (q = "")) as [->|Hq]; [done|].
  rewrite parseQuery_turn by done. by apply IH, parse_key_nonempty.
Qed.

Lemma Query_nonempty u : lists_nonempty (url.Query u).
Proof.
  apply parseQuery_nonempty. intros k. by rewrite lookup_empty.
Qed.

(** * The query [Get] builds *)

Section query_facts.

Variable Parse : string → error + url.URL.
Variable URL_String : url.URL → string.
Variable net : http.Network.
Variable Decode :
  string → TelemetryResponse → TelemetryResponse * option error.

(** The map [Get] encodes: the query of the parsed URL and then the
    parameters, one [Add] each. *)
Lemma Get_url_ok c endpoint params u :
  Parse (Client_baseURL c +:+ endpoint) = inr u →
  ∃ q, Get_url Parse c endpoint params
       = inr (url.set_RawQuery (url.Encode q) u)
    ∧ url.ParseQuery (url.Encode q) = (q, None)
    ∧ ∀ k, q !!! k = url.Query u !!! k ++ values_for k params.
Proof.
  intros Hu. unfold Get_url. rewrite Hu.
  eexists. split; [done|]. split.
  - apply ParseQuery_Encode.
    apply (lists_nonempty_fold (λ p, (Key p, Value p))), Query_nonempty.
  - intros k. apply (fold_Add_lookup_total (λ p, (Key p, Value p))).
Qed.

Lemma Get_sends c endpoint params u' u'' log :
  Get_url Parse c endpoint params = inr u' →
  Parse (URL_String u') = inr u'' →
  ∃ req, (Get Parse URL_String net c endpoint params log).2 = log ++ [req]
    ∧ http.Method req = "GET" ∧ http.URL req = URL_String u'.
Proof.
  intros Hurl Hu. rewrite Get_run. unfold Get_request.
  rewrite Hurl, (NewRequest_GET_ok _ _ _ Hu).
  eexists. split; [done|].
  by destruct (authorize_target c
    {| http.Method := "GET"; http.URL := URL_String u';
       http.Header_ := ∅ |}).
Qed.

(** C7. The query string of the URL [Get] makes its request for
    decodes, with no error, to a map that gives every key the values
    the URL had for it already and then every value the parameters
    give it, one per occurrence and in their order: no pair is
    dropped or merged. *)
Theorem Get_query_keeps_every_pair c endpoint params u log :
  Parse (Client_baseURL c +:+ endpoint) = inr u →
  ∃ u' q,
    Get_url Parse c endpoint params = inr u'
    ∧ url.ParseQuery (url.RawQuery u') = (q, None)
    ∧ (∀ k, q !!! k = url.Query u !!! k ++ values_for k params)
    ∧ (∀ u'', Parse (URL_String u') = inr u'' →
         ∃ req,
           (Get Parse URL_String net c endpoint params log).2
           = log ++ [req]
           ∧ http.Method req = "GET"
           ∧ http.URL req = URL_String u').
Proof.
  intros Hu.
  destruct (Get_url_ok c endpoint params u Hu) as (q & Hurl & Hq & Hk).
  eexists _, q. split; [exact Hurl|]. split; [exact Hq|].
  split; [exact Hk|]. intros u'' Hu''. by eapply Get_sends.
Qed.

Lemma values_for_elem p params :
  p ∈ params → Value p ∈ values_for (Key p) params.
Proof.
  intros Hp. unfold values_for. apply list_elem_of_fmap.
  exists p. split; [done|]. by apply list_elem_of_filter.
Qed.

(** C6. A parameter value goes through escaping and back unchanged,
    whatever its bytes, and decoding the query string of the URL
    [Get] makes its request for gives the value back under its key;
    that URL, as a string, is the URL of the one GET that [Get]
    sends. *)
Theorem Get_query_round_trip c endpoint params u p log :
  Parse (Client_baseURL c +:+ endpoint) = inr u →
  p ∈ params →
  url.QueryUnescape (url.QueryEscape (Value p)) = (Value p, None)
  ∧ ∃ u' q,
      Get_url Parse c endpoint params = inr u'
      ∧ url.ParseQuery (url.RawQuery u') = (q, None)
      ∧ Value p ∈ q !!! Key p
      ∧ (∀ u'', Parse (URL_String u') = inr u'' →
           ∃ req,
             (Get Parse URL_String net c endpoint params log).2
             = log ++ [req]
             ∧ http.Method req = "GET"
             ∧ http.URL req = URL_String u').
Proof.
  intros Hu Hp. split; [apply QueryUnescape_QueryEscape|].
  destruct (Get_url_ok c endpoint params u Hu) as (q & Hurl & Hq & Hk).
  eexists _, q. split; [exact Hurl|]. split; [exact Hq|]. split.
  - rewrite Hk. apply elem_of_app. right. by apply values_for_elem.
  - intros u'' Hu''. by eapply Get_sends.
Qed.

End query_facts.

(** * The telemetry request *)


Section telemetry_facts.

Variable Parse : string → error + url.URL.
Variable URL_String : url.URL → string.
Variable net : http.Network.
Variable Decode :
  string → TelemetryResponse → TelemetryResponse * option error.

Lemma telemetry_sends c s u' u'' log :
  Get_url Parse c "/telemetry/" (telemetry_params s) = inr u' →
  Parse (URL_String u') = inr u'' →
  ∃ req,
    http.Method req = "GET" ∧ http.URL req = URL_String u'
    ∧ (GetTelemetryResponse Parse URL_String net Decode c s log).2
      = log ++ [req]
    ∧ (GetTelemetry Parse URL_String net Decode c s log).2 = log ++ [req]
    ∧ (GetTelemetry_client_go Parse URL_String net Decode c s log).2
      = log ++ [req].
Proof.
  intros Hurl Hu.
  rewrite Telemetry_run, Telemetry_go_run, Page_run. unfold Get_request.
  rewrite Hurl, (NewRequest_GET_ok _ _ _ Hu). simpl.
  eexists. split; [|split; [|done]];
  by destruct (authorize_target c
    {| http.Method := "GET"; http.URL := URL_String u';
       http.Header_ := ∅ |}).
Qed.


End telemetry_facts.

(** * The theorems at work *)

Lemma walker_terminal_witness :
  Next {| Next := ""; Prev := ""; Results := Some [stub.record1] |} = ""
  ∧ GetTelemetryResponseNextPage stub.Parse (stub.net 1 "last") stub.Decode
      (NewClient "k")
      {| Next := ""; Prev := ""; Results := Some [stub.record1] |}
      [stub.request1]
    = (http.Ret (None, None), [stub.request1]).
Proof.
  split; [reflexivity|].
  apply (walker_terminal stub.Parse (stub.net 1 "last") stub.Decode).
  reflexivity.
Defined.

Lemma walker_follows_link_witness :
  stub.page2 ≠ ""
  ∧ stub.Parse stub.page2
    = inr (stub.mkURL "https://db.satnogs.org/api/telemetry/"
             "sat_id=X&page=2")
  ∧ ∃ req,
      (GetTelemetryResponseNextPage stub.Parse (stub.net 1 "last")
         stub.Decode (NewClient "")
         {| Next := stub.page2; Prev := ""; Results := Some [] |} []).2
      = [] ++ [req]
      ∧ http.Method req = "GET" ∧ http.URL req = stub.page2.
Proof.
  split; [discriminate|]. split; [vm_compute; reflexivity|].
  apply (walker_follows_link stub.Parse (stub.net 1 "last") stub.Decode
           (NewClient "")
           {| Next := stub.page2; Prev := ""; Results := Some [] |} []).
  - discriminate.
  - eexists. vm_compute. reflexivity.
Defined.

Lemma decode_failure_witness :
  stub.Decode "{" zero_TelemetryResponse
  = ({| Next := "partial"; Prev := ""; Results := None |},
     Some (ErrLib "encoding/json" "unexpected end of JSON input"))
  ∧ GetTelemetryResponse stub.Parse stub.URL_String (stub.net 1 "{")
      stub.Decode (NewClient "k") "43770" []
    = (http.Ret
         (None, Some (ErrLib "encoding/json" "unexpected end of JSON input")),
       [stub.request1]).
Proof.
  split; [vm_compute; reflexivity|].
  apply (decode_failure stub.Parse stub.URL_String (stub.net 1 "{")
           stub.Decode (NewClient "k")
           {| http.StatusCode := 200; http.Body := "{" |}
           {| Next := "partial"; Prev := ""; Results := None |}).
  - vm_compute. reflexivity.
  - vm_compute. reflexivity.
Defined.


Lemma Get_query_round_trip_witness :
  stub.Parse (Client_baseURL (NewClient "") +:+ "/telemetry/")
  = inr (stub.mkURL "https://db.satnogs.org/api/telemetry/" "")
  ∧ url.QueryUnescape (url.QueryEscape "a b&c#") = ("a b&c#", None)
  ∧ ∃ u' q req,
      Get_url stub.Parse (NewClient "") "/telemetry/"
        [ {| Key := "note"; Value := "a b&c#" |} ] = inr u'
      ∧ url.ParseQuery (url.RawQuery u') = (q, None)
      ∧ "a b&c#" ∈ q !!! "note"
      ∧ (Get stub.Parse stub.URL_String (stub.net 1 "last") (NewClient "")
           "/telemetry/" [ {| Key := "note"; Value := "a b&c#" |} ] []).2
        = [] ++ [req]
      ∧ http.URL req = stub.URL_String u'.
Proof.
  split; [vm_compute; reflexivity|].
  destruct (Get_query_round_trip stub.Parse stub.URL_String
              (stub.net 1 "last") (NewClient "") "/telemetry/"
              [ {| Key := "note"; Value := "a b&c#" |} ]
              (stub.mkURL "https://db.satnogs.org/api/telemetry/" "")
              {| Key := "note"; Value := "a b&c#" |} [])
    as (Hrt & u' & q & Hurl & Hq & Hin & Hsend).
  { vm_compute. reflexivity. }
  { constructor. }
  split; [exact Hrt|].
  destruct (Hsend (stub.mkURL
              "https://db.satnogs.org/api/telemetry/" "note=a+b%26c%23"))
    as (req & Hlog & _ & Hreq).
  { revert Hurl. vm_compute. intros [= <-]. reflexivity. }
  exists u', q, req. repeat split; assumption.
Defined.

Lemma Get_query_keeps_every_pair_witness :
  stub.Parse (Client_baseURL (NewClient "") +:+ "/telemetry/?a=0")
  = inr (stub.mkURL "https://db.satnogs.org/api/telemetry/" "a=0")
  ∧ ∃ u' q,
      Get_url stub.Parse (NewClient "") "/telemetry/?a=0"
        [ {| Key := "a"; Value := "1" |}; {| Key := "b"; Value := "x y" |};
          {| Key := "a"; Value := "1" |} ] = inr u'
      ∧ url.ParseQuery (url.RawQuery u') = (q, None)
      ∧ q !!! "a" = ["0"; "1"; "1"] ∧ q !!! "b" = ["x y"].
Proof.
  split; [vm_compute; reflexivity|].
  destruct (Get_query_keeps_every_pair stub.Parse stub.URL_String
              (stub.net 1 "last") (NewClient "") "/telemetry/?a=0"
              [ {| Key := "a"; Value := "1" |};
                {| Key := "b"; Value := "x y" |};
                {| Key := "a"; Value := "1" |} ]
              (stub.mkURL "https://db.satnogs.org/api/telemetry/" "a=0") [])
    as (u' & q & Hurl & Hq & Hk & _).
  { vm_compute. reflexivity. }
  exists u', q. split; [exact Hurl|]. split; [exact Hq|].
  split; rewrite Hk; vm_compute; reflexivity.
Defined.

Lemma slow_exchange_times_out_witness :
  (10 * http.Second < 11 * http.Second)%Z
  ∧ (GetTelemetryResponse stub.Parse stub.URL_String
       (stub.net (11 * http.Second) "last") stub.Decode
       (NewClient "k") "43770" []).1
    = http.Ret (None, Some ErrTimeout).
Proof.
  split; [reflexivity|].
  refine (proj1 (proj2 (proj2
    (slow_exchange_times_out stub.Parse stub.URL_String
       (stub.net (11 * http.Second) "last") stub.Decode
       "k" "/telemetry/" [] "43770" zero_TelemetryResponse []
       stub.request1 _))) _).
  - reflexivity.
  - vm_compute. reflexivity.
Defined.

(** * More of the client: errors, headers, status codes *)

Section client_more.

Variable Parse : string → error + url.URL.
Variable URL_String : url.URL → string.
Variable net : http.Network.
Variable Decode :
  string → TelemetryResponse → TelemetryResponse * option error.

Lemma Get_request_error c endpoint params err :
  Parse (Client_baseURL c +:+ endpoint) = inl err
  ∨ (∃ u', Get_url Parse c endpoint params = inr u'
           ∧ Parse (URL_String u') = inl err) →
  Get_request Parse URL_String c endpoint params = inl err.
Proof.
  unfold Get_request. intros [Hu|(u' & Hurl & Hu)].
  - unfold Get_url. by rewrite Hu.
  - rewrite Hurl. unfold http.NewRequest. simpl. by rewrite Hu.
Qed.

(** X1. When the URL does not parse, as base URL plus endpoint or as
    the string of the URL with its query, [Get] returns the parser's
    error and sends nothing; so do [GetTelemetryResponse] and both
    [GetTelemetry] for their endpoint. *)
Theorem url_error_sends_nothing c endpoint params s err log :
  Parse (Client_baseURL c +:+ endpoint) = inl err
  ∨ (∃ u', Get_url Parse c endpoint params = inr u'
           ∧ Parse (URL_String u') = inl err) →
  Get Parse URL_String net c endpoint params log
  = (http.Ret (None, Some err), log)
  ∧ (endpoint = "/telemetry/" → params = telemetry_params s →
     GetTelemetryResponse Parse URL_String net Decode c s log
     = (http.Ret (None, Some err), log)
     ∧ GetTelemetry Parse URL_String net Decode c s log
       = (http.Ret (None, Some err), log)
     ∧ GetTelemetry_client_go Parse URL_String net Decode c s log
       = (http.Ret (None, Some err), log)).
Proof.
  intros Herr%Get_request_error. split.
  - by rewrite Get_run, Herr.
  - intros -> ->.
    rewrite Telemetry_run, Telemetry_go_run, Page_run, Herr. done.
Qed.

(** X2. A walker whose link is not empty and does not parse returns
    the parser's error and sends nothing. *)
Theorem walker_bad_link c t err log :
  (Next t ≠ "" → Parse (Next t) = inl err →
   GetTelemetryResponseNextPage Parse net Decode c t log
   = (http.Ret (None, Some err), log))
  ∧ (Prev t ≠ "" → Parse (Prev t) = inl err →
     GetTelemetryResponsePrevPage Parse net Decode c t log
     = (http.Ret (None, Some err), log)).
Proof.
  rewrite NextPage_run, PrevPage_run. split; intros Hne Hu.
  - destruct (decide _); [done|]. unfold http.NewRequest. simpl.
    by rewrite Hu.
  - destruct (decide _); [done|]. unfold http.NewRequest. simpl.
    by rewrite Hu.
Qed.

(** X3. Whenever [Get] reports an error, with a response beside it or
    without, [GetTelemetryResponse] and both [GetTelemetry] return that
    error and no page: the decoder is not asked. *)
Theorem Get_error_returned c s r err log log' :
  Get Parse URL_String net c "/telemetry/" (telemetry_params s) log
  = (http.Ret (r, Some err), log') →
  GetTelemetryResponse Parse URL_String net Decode c s log
  = (http.Ret (None, Some err), log')
  ∧ GetTelemetry Parse URL_String net Decode c s log
    = (http.Ret (None, Some err), log')
  ∧ GetTelemetry_client_go Parse URL_String net Decode c s log
    = (http.Ret (None, Some err), log').
Proof.
  rewrite Telemetry_run, Telemetry_go_run, Page_run, Get_run.
  destruct (Get_request _ _ _ _ _) as [e|req]; simpl.
  - by intros [= <- <- <-].
  - intros [= Ha <-]. rewrite Ha. by destruct r.
Qed.

Lemma authorize_bare c req :
  http.Method req = "GET" → http.Header_ req = ∅ →
  bare_get (apiKey c) (authorize c req).
Proof.
  intros Hm Hh. unfold bare_get, authorize.
  destruct (decide (apiKey c = "")); [by rewrite Hm, Hh|].
  simpl. by rewrite Hm, Hh.
Qed.

Lemma fetch_sent_bare c url log :
  sent_bare (apiKey c) log
    (fetch net Decode c (http.NewRequest Parse "GET" url) log).2.
Proof.
  destruct (http.NewRequest Parse "GET" url) as [err|req] eqn:Hreq;
    simpl; [by left|].
  right. eexists. split; [done|].
  apply NewRequest_GET in Hreq as [-> _]. by apply authorize_bare.
Qed.

(** X4. Whatever [Get], [GetTelemetryResponse] or a walker sends is a
    GET whose header holds nothing but the authorization: no entry at
    all without an API key. *)
Theorem requests_bare c endpoint params s t log :
  sent_bare (apiKey c) log
    (Get Parse URL_String net c endpoint params log).2
  ∧ sent_bare (apiKey c) log
      (GetTelemetryResponse Parse URL_String net Decode c s log).2
  ∧ sent_bare (apiKey c) log
      (GetTelemetryResponseNextPage Parse net Decode c t log).2
  ∧ sent_bare (apiKey c) log
      (GetTelemetryResponsePrevPage Parse net Decode c t log).2.
Proof.
  rewrite Get_run, Page_run, NextPage_run, PrevPage_run.
  unfold Get_request. repeat split.
  - destruct (Get_url _ _ _ _) as [err|u]; [by left|].
    destruct (http.NewRequest _ _ _) as [err|req] eqn:Hreq; [by left|].
    right. eexists. split; [done|].
    apply NewRequest_GET in Hreq as [-> _]. by apply authorize_bare.
  - destruct (Get_url _ _ _ _) as [err|u]; [by left|].
    apply fetch_sent_bare.
  - destruct (decide _); [by left|]. apply fetch_sent_bare.
  - destruct (decide _); [by left|]. apply fetch_sent_bare.
Qed.

(** X5. [GetTelemetry] returns a nil slice with a nil error exactly
    when [GetTelemetryResponse] returns a page whose results are nil:
    unlike there, nil and nil does happen here. *)
Theorem GetTelemetry_nil_nil c s log :
  (GetTelemetry Parse URL_String net Decode c s log).1
  = http.Ret (None, None)
  ↔ ∃ page,
      (GetTelemetryResponse Parse URL_String net Decode c s log).1
      = http.Ret (Some page, None)
      ∧ Results page = None.
Proof.
  rewrite Telemetry_run. simpl.
  destruct (fetch_not_nil_nil net Decode c
    (Get_request Parse URL_String c "/telemetry/" (telemetry_params s)) log)
    as (p & e & log' & Hrun & Hpe).
  rewrite Page_run, Hrun. simpl.
  destruct p as [page|], e as [err|]; simpl.
  - split; [done|]. by intros (? & [=] & _).
  - split.
    + intros [= H]. by exists page.
    + intros (page' & [= <-] & ->). done.
  - split; [done|]. by intros (? & [=] & _).
  - destruct Hpe as [_ Hpe]. by destruct Hpe.
Qed.

(** X6. The two walkers are one function up to the link they read:
    going back from a page is going forward from the page with its
    links exchanged. *)
Theorem walkers_mirror c t log :
  GetTelemetryResponsePrevPage Parse net Decode c t log
  = GetTelemetryResponseNextPage Parse net Decode c (turned t) log.
Proof. by rewrite NextPage_run, PrevPage_run. Qed.

(** X7. A walker fetches as the first-page fetch does: on a page whose
    next link is the URL [GetTelemetryResponse] asks for, it sends the
    same request and returns the same page or error. *)
Theorem walker_fetches_as_first_page c s t u' log :
  Get_url Parse c "/telemetry/" (telemetry_params s) = inr u' →
  Next t = URL_String u' → Next t ≠ "" →
  GetTelemetryResponseNextPage Parse net Decode c t log
  = GetTelemetryResponse Parse URL_String net Decode c s log.
Proof.
  intros Hurl Hlink Hne. rewrite NextPage_run, Page_run.
  destruct (decide _); [done|]. unfold Get_request.
  by rewrite Hurl, Hlink.
Qed.

End client_more.

Lemma answer_with_status code net cl log req :
  http.answer (with_status code net) cl log req
  = match http.answer net cl log req with
    | (resp, err) =>
        ((λ resp, {| http.StatusCode := code;
                     http.Body := http.Body resp |}) <$> resp, err)
    end.
Proof.
  unfold http.answer, with_status. simpl.
  destruct (_ && _); [done|]. by destruct (http.result _).
Qed.

Lemma fetch_with_status code net Decode c target log :
  fetch (with_status code net) Decode c target log
  = fetch net Decode c target log.
Proof.
  destruct target as [err|req]; [done|]. simpl. f_equal.
  rewrite answer_with_status.
  by destruct (http.answer _ _ _ _) as [[resp|] [err|]].
Qed.

(** X8. The status code of a response plays no part in a fetch: with
    every status replaced by any one code, [GetTelemetryResponse], both
    [GetTelemetry] and both walkers return what they returned and send
    what they sent. *)
Theorem status_code_ignored Parse URL_String net Decode code c s t log :
  GetTelemetryResponse Parse URL_String (with_status code net) Decode c s log
  = GetTelemetryResponse Parse URL_String net Decode c s log
  ∧ GetTelemetry Parse URL_String (with_status code net) Decode c s log
    = GetTelemetry Parse URL_String net Decode c s log
  ∧ GetTelemetry_client_go Parse URL_String (with_status code net) Decode
      c s log
    = GetTelemetry_client_go Parse URL_String net Decode c s log
  ∧ GetTelemetryResponseNextPage Parse (with_status code net) Decode c t log
    = GetTelemetryResponseNextPage Parse net Decode c t log
  ∧ GetTelemetryResponsePrevPage Parse (with_status code net) Decode c t log
    = GetTelemetryResponsePrevPage Parse net Decode c t log.
Proof.
  rewrite !Telemetry_run, !Telemetry_go_run, !Page_run, !NextPage_run,
    !PrevPage_run, !fetch_with_status.
  repeat split.
Qed.

(** * More of the query [Get] builds *)

Lemma all_bytes_app P s t :
  http.all_bytes P (s +:+ t) = http.all_bytes P s && http.all_bytes P t.
Proof.
  induction s as [|c s IH]; [done|].
  rewrite string_app_cons. cbn [http.all_bytes]. by rewrite IH, andb_assoc.
Qed.

Lemma byte_to_query_bytes c : byte_escapes_to_query_bytes c = true.
Proof. by destruct c as [[] [] [] [] [] [] [] []]. Qed.

Lemma QueryEscape_query_bytes s :
  http.all_bytes query_byte (url.QueryEscape s) = true.
Proof.
  rewrite QueryEscape_write. induction s as [|c s IH]; [done|].
  pose proof (byte_to_query_bytes c) as Hc.
  unfold byte_escapes_to_query_bytes in Hc. simpl.
  destruct (Ascii.eqb c " "); [done|].
  destruct (url.shouldEscape c); simpl.
  - apply andb_true_iff in Hc as [-> ->]. done.
  - by rewrite Hc.
Qed.

Lemma glue_query_bytes a b :
  http.all_bytes query_byte a = true → http.all_bytes query_byte b = true →
  http.all_bytes query_byte (glue a b) = true.
Proof.
  intros Ha Hb. unfold glue. destruct a as [|x a]; [done|].
  destruct b as [|y b]; [done|].
  change (String x a +:+ "&" +:+ String y b)
    with (String x a +:+ String "&"%char (String y b)).
  rewrite all_bytes_app, Ha.
  change (http.all_bytes query_byte (String "&"%char (String y b)))
    with (query_byte "&" && http.all_bytes query_byte (String y b)).
  by rewrite Hb.
Qed.

Lemma Encode_query_bytes (v : url.Values) :
  http.all_bytes query_byte (url.Encode v) = true.
Proof.
  rewrite Encode_join.
  induction (pairs_of v _) as [|[k x] pairs IH]; [done|].
  cbn [fmap list_fmap join_amp foldr fst snd].
  apply glue_query_bytes; [|exact IH]. unfold segment.
  rewrite !all_bytes_app, !QueryEscape_query_bytes. done.
Qed.

Lemma Get_url_inr Parse c endpoint params u' :
  Get_url Parse c endpoint params = inr u' →
  ∃ u, Parse (Client_baseURL c +:+ endpoint) = inr u
    ∧ u' = url.set_RawQuery
             (url.Encode
                (foldl (λ q param, url.Add (Key param) (Value param) q)
                   (url.Query u) params)) u.
Proof.
  unfold Get_url. destruct (Parse _) as [err|u]; [done|].
  intros [= <-]. by exists u.
Qed.

(** X9. The query string of the URL [Get] makes its request for holds
    only letters, digits, the marks [-_.~] and [%], [+], [=], [&]:
    no space, no [#], no [?], whatever bytes the parameters and the
    endpoint hold. *)
Theorem Get_query_bytes Parse c endpoint params u' :
  Get_url Parse c endpoint params = inr u' →
  http.all_bytes query_byte (url.RawQuery u') = true.
Proof.
  intros (u & _ & ->)%Get_url_inr. simpl. apply Encode_query_bytes.
Qed.

(** X10. The URL [Get] asks for depends on the values each key is
    given and their order under that key, not on how the parameters of
    different keys are interleaved. *)
Theorem Get_parameter_order Parse URL_String net c endpoint params params'
    log :
  (∀ k, values_for k params = values_for k params') →
  Get_url Parse c endpoint params = Get_url Parse c endpoint params'
  ∧ Get Parse URL_String net c endpoint params log
    = Get Parse URL_String net c endpoint params' log.
Proof.
  intros Hk.
  assert (Get_url Parse c endpoint params
          = Get_url Parse c endpoint params') as Hurl.
  { unfold Get_url. destruct (Parse _) as [err|u]; [done|].
    do 3 f_equal.
    apply lists_nonempty_eq.
    - apply (lists_nonempty_fold (λ p, (Key p, Value p))), Query_nonempty.
    - apply (lists_nonempty_fold (λ p, (Key p, Value p))), Query_nonempty.
    - intros k.
      rewrite !(fold_Add_lookup_total (λ p, (Key p, Value p))).
      f_equal. apply Hk. }
  split; [done|]. unfold Get. by rewrite Hurl.
Qed.

(** X11. Where the parsed URL of the telemetry endpoint has no query
    of its own, [GetTelemetryResponse] and both [GetTelemetry] send one
    GET whose URL has a query that decodes to [sat_id] with the one
    value [s], [format] with the one value [json] and nothing else,
    whatever bytes [s] holds: an identifier cannot add or change a
    parameter. *)
Theorem telemetry_query_exact Parse URL_String net Decode c s u log :
  Parse (Client_baseURL c +:+ "/telemetry/") = inr u →
  url.RawQuery u = "" →
  ∃ u' q,
    Get_url Parse c "/telemetry/" (telemetry_params s) = inr u'
    ∧ url.ParseQuery (url.RawQuery u') = (q, None)
    ∧ (∀ k, q !!! k
            = if decide (k = "sat_id") then [s]
              else if decide (k = "format") then ["json"] else [])
    ∧ (∀ u'', Parse (URL_String u') = inr u'' →
         ∃ req,
           http.Method req = "GET" ∧ http.URL req = URL_String u'
           ∧ (GetTelemetryResponse Parse URL_String net Decode c s log).2
             = log ++ [req]
           ∧ (GetTelemetry Parse URL_String net Decode c s log).2
             = log ++ [req]
           ∧ (GetTelemetry_client_go Parse URL_String net Decode
                c s log).2
             = log ++ [req]).
Proof.
  intros Hu Hraw.
  destruct (Get_url_ok Parse c "/telemetry/" (telemetry_params s) u Hu)
    as (q & Hurl & Hq & Hk).
  eexists _, q. split; [exact Hurl|]. split; [exact Hq|]. split.
  - intros k. rewrite Hk. unfold url.Query. rewrite Hraw.
    unfold url.ParseQuery. simpl. rewrite lookup_total_empty. simpl.
    unfold values_for, telemetry_params.
    destruct (decide (k = "sat_id")) as [->|Hs].
    + rewrite filter_cons_True by done.
      by rewrite filter_cons_False by done.
    + rewrite filter_cons_False by (simpl; congruence).
      destruct (decide (k = "format")) as [->|Hf].
      * by rewrite filter_cons_True by done.
      * by rewrite filter_cons_False by (simpl; congruence).
  - intros u'' Hu''. by eapply telemetry_sends.
Qed.

(** X12. The query string of the URL [Get] makes its request for is in
    one fixed form: the keys once each in sorted order, every key with
    its values in order, as [key=value] joined by [&]. *)
Theorem Get_query_sorted Parse c endpoint params u :
  Parse (Client_baseURL c +:+ endpoint) = inr u →
  ∃ u' q keys,
    Get_url Parse c endpoint params = inr u'
    ∧ (∀ k, q !!! k = url.Query u !!! k ++ values_for k params)
    ∧ StronglySorted String.le keys ∧ NoDup keys
    ∧ (∀ k, k ∈ keys ↔ q !!! k ≠ [])
    ∧ url.RawQuery u'
      = join_amp ((λ p, segment p.1 p.2) <$> pairs_of q keys).
Proof.
  intros Hu. unfold Get_url. rewrite Hu.
  set (q := foldl _ _ params).
  assert (lists_nonempty q) as Hne.
  { apply (lists_nonempty_fold (λ p, (Key p, Value p))), Query_nonempty. }
  set (keys := merge_sort String.le (map_to_list q).*1).
  assert (keys ≡ₚ (map_to_list q).*1) as Hperm
    by apply merge_sort_Permutation.
  exists (url.set_RawQuery (url.Encode q) u), q, keys.
  split; [done|]. split.
  { intros k. apply (fold_Add_lookup_total (λ p, (Key p, Value p))). }
  split; [apply StronglySorted_merge_sort; apply _|].
  split; [rewrite Hperm; apply NoDup_fst_map_to_list|].
  split; [|simpl; apply Encode_join].
  intros k. rewrite Hperm, lookup_total_alt. split.
  - intros ((k' & vs) & -> & Hin%elem_of_map_to_list)%list_elem_of_fmap.
    simpl in *. rewrite Hin. simpl. intros ->. by apply (Hne k').
  - destruct (q !! k) as [vs|] eqn:Hkq; [|done]. intros _.
    apply list_elem_of_fmap. exists (k, vs). split; [done|].
    by apply elem_of_map_to_list.
Qed.

(** X13. A client made by [NewClient] does not cut short an exchange
    of less than ten seconds: [Get] returns what the network gave, the
    response with whatever status, or the error and the response that
    came with it. *)
Theorem Get_in_time Parse URL_String net k endpoint params log req :
  (http.elapsed (net log req) < 10 * http.Second)%Z →
  (Get Parse URL_String net (NewClient k) endpoint params log).2
  = log ++ [req] →
  (Get Parse URL_String net (NewClient k) endpoint params log).1
  = http.Ret (outcome_pair (http.result (net log req))).
Proof.
  intros Hfast. rewrite Get_run.
  destruct (Get_request _ _ _ _ _) as [err|req0]; simpl.
  - intros H. by apply log_does_not_grow in H.
  - intros <-%log_grows_by_one. unfold http.answer. simpl.
    destruct (Z.ltb_spec (10 * http.Second)
                (http.elapsed (net log (authorize (NewClient k) req0))))
      as [Hlate|_]; [lia|].
    by destruct (http.result _).
Qed.


(** * The further theorems at work *)

Lemma url_error_sends_nothing_witness :
  stub.Parse (Client_baseURL (NewClient "k") +:+ "/tele metry/")
  = inl (ErrLib "net/url" "invalid control character in URL")
  ∧ Get stub.Parse stub.URL_String (stub.net 1 "last") (NewClient "k")
      "/tele metry/" [] [stub.request1]
    = (http.Ret
         (None, Some (ErrLib "net/url" "invalid control character in URL")),
       [stub.request1]).
Proof.
  split; [vm_compute; reflexivity|].
  refine (proj1 (url_error_sends_nothing stub.Parse stub.URL_String
    (stub.net 1 "last") stub.Decode (NewClient "k") "/tele metry/" [] ""
    (ErrLib "net/url" "invalid control character in URL")
    [stub.request1] _)).
  left. vm_compute. reflexivity.
Defined.

Lemma walker_bad_link_witness :
  stub.Parse "not a link"
  = inl (ErrLib "net/url" "invalid control character in URL")
  ∧ GetTelemetryResponseNextPage stub.Parse (stub.net 1 "last") stub.Decode
      (NewClient "k")
      {| Next := "not a link"; Prev := ""; Results := None |} []
    = (http.Ret
         (None, Some (ErrLib "net/url" "invalid control character in URL")),
       []).
Proof.
  split; [vm_compute; reflexivity|].
  apply (walker_bad_link stub.Parse (stub.net 1 "last") stub.Decode
           (NewClient "k")
           {| Next := "not a link"; Prev := ""; Results := None |}).
  - discriminate.
  - vm_compute. reflexivity.
Defined.

Lemma Get_error_returned_witness :
  Get stub.Parse stub.URL_String stub.net_down (NewClient "k")
    "/telemetry/" (telemetry_params "43770") []
  = (http.Ret (None, Some (ErrLib "net" "connection refused")),
     [stub.request1])
  ∧ GetTelemetryResponse stub.Parse stub.URL_String stub.net_down
      stub.Decode (NewClient "k") "43770" []
    = (http.Ret (None, Some (ErrLib "net" "connection refused")),
       [stub.request1]).
Proof.
  split; [vm_compute; reflexivity|].
  apply (Get_error_returned stub.Parse stub.URL_String stub.net_down
           stub.Decode (NewClient "k") "43770" None).
  vm_compute. reflexivity.
Defined.

Lemma walker_fetches_as_first_page_witness :
  GetTelemetryResponseNextPage stub.Parse (stub.net 1 "last") stub.Decode
    (NewClient "k")
    {| Next := http.URL stub.request1; Prev := ""; Results := None |} []
  = GetTelemetryResponse stub.Parse stub.URL_String (stub.net 1 "last")
      stub.Decode (NewClient "k") "43770" [].
Proof.
  apply (walker_fetches_as_first_page stub.Parse stub.URL_String
           (stub.net 1 "last") stub.Decode (NewClient "k") "43770"
           {| Next := http.URL stub.request1; Prev := ""; Results := None |}
           (stub.mkURL "https://db.satnogs.org/api/telemetry/"
              "format=json&sat_id=43770")).
  - vm_compute. reflexivity.
  - vm_compute. reflexivity.
  - discriminate.
Defined.

Lemma Get_query_bytes_witness :
  Get_url stub.Parse (NewClient "") "/telemetry/"
    [ {| Key := "note"; Value := "a b&c#" |} ]
  = inr (stub.mkURL "https://db.satnogs.org/api/telemetry/"
           "note=a+b%26c%23")
  ∧ http.all_bytes query_byte "note=a+b%26c%23" = true.
Proof.
  split; [vm_compute; reflexivity|].
  apply (Get_query_bytes stub.Parse (NewClient "") "/telemetry/"
           [ {| Key := "note"; Value := "a b&c#" |} ]
           (stub.mkURL "https://db.satnogs.org/api/telemetry/"
              "note=a+b%26c%23")).
  vm_compute. reflexivity.
Defined.

Lemma Get_parameter_order_witness :
  Get_url stub.Parse (NewClient "") "/telemetry/"
    [ {| Key := "b"; Value := "2" |}; {| Key := "a"; Value := "1" |} ]
  = Get_url stub.Parse (NewClient "") "/telemetry/"
      [ {| Key := "a"; Value := "1" |}; {| Key := "b"; Value := "2" |} ].
Proof.
  refine (proj1 (Get_parameter_order stub.Parse stub.URL_String
    (stub.net 1 "last") (NewClient "") "/telemetry/"
    [ {| Key := "b"; Value := "2" |}; {| Key := "a"; Value := "1" |} ]
    [ {| Key := "a"; Value := "1" |}; {| Key := "b"; Value := "2" |} ]
    [] _)).
  intros k. unfold values_for. rewrite !filter_cons, !filter_nil. simpl.
  destruct (decide ("b" = k)) as [Hb|Hb], (decide ("a" = k)) as [Ha|Ha];
    try reflexivity.
  congruence.
Defined.

Lemma telemetry_query_exact_witness :
  ∃ u' q req,
    Get_url stub.Parse (NewClient "k") "/telemetry/"
      (telemetry_params "1&format=xml") = inr u'
    ∧ url.ParseQuery (url.RawQuery u') = (q, None)
    ∧ q !!! "sat_id" = ["1&format=xml"] ∧ q !!! "format" = ["json"]
    ∧ (GetTelemetryResponse stub.Parse stub.URL_String (stub.net 1 "last")
         stub.Decode (NewClient "k") "1&format=xml" []).2
      = [] ++ [req]
    ∧ http.URL req = stub.URL_String u'.
Proof.
  destruct (telemetry_query_exact stub.Parse stub.URL_String
              (stub.net 1 "last") stub.Decode (NewClient "k")
              "1&format=xml"
              (stub.mkURL "https://db.satnogs.org/api/telemetry/" "") [])
    as (u' & q & Hurl & Hq & Hk & Hsend).
  { vm_compute. reflexivity. }
  { reflexivity. }
  destruct (Hsend (stub.mkURL "https://db.satnogs.org/api/telemetry/"
                     "format=json&sat_id=1%26format%3Dxml"))
    as (req & _ & Hreq & Hlog & _).
  { revert Hurl. vm_compute. intros [= <-]. reflexivity. }
  exists u', q, req. split; [exact Hurl|]. split; [exact Hq|].
  split; [exact (Hk "sat_id")|]. split; [exact (Hk "format")|].
  split; assumption.
Defined.

Lemma Get_query_sorted_witness :
  ∃ u' q keys,
    Get_url stub.Parse (NewClient "") "/telemetry/"
      [ {| Key := "b"; Value := "2" |}; {| Key := "a"; Value := "1" |} ]
    = inr u'
    ∧ StronglySorted String.le keys
    ∧ url.RawQuery u'
      = join_amp ((λ p, segment p.1 p.2) <$> pairs_of q keys).
Proof.
  destruct (Get_query_sorted stub.Parse (NewClient "") "/telemetry/"
              [ {| Key := "b"; Value := "2" |}; {| Key := "a"; Value := "1" |} ]
              (stub.mkURL "https://db.satnogs.org/api/telemetry/" ""))
    as (u' & q & keys & Hurl & _ & Hsorted & _ & _ & Hraw).
  { vm_compute. reflexivity. }
  exists u', q, keys. split; [exact Hurl|]. split; [exact Hsorted|].
  exact Hraw.
Defined.

Lemma Get_in_time_witness :
  (1 < 10 * http.Second)%Z
  ∧ (Get stub.Parse stub.URL_String (stub.net 1 "last") (NewClient "k")
       "/telemetry/" (telemetry_params "43770") []).1
    = http.Ret
        (Some {| http.StatusCode := 200; http.Body := "last" |}, None).
Proof.
  split; [reflexivity|].
  apply (Get_in_time stub.Parse stub.URL_String (stub.net 1 "last") "k"
           "/telemetry/" (telemetry_params "43770") [] stub.request1).
  - reflexivity.
  - vm_compute. reflexivity.
Defined.
